(** * Predictor component reconciler and multi-model config-map reconciler

    A shallow embedding of
    [pkg/controller/v1beta1/inferenceservice/components/predictor.go]
    (package [components]) and of the config-map reconciler of package
    [multimodelconfig], together with the properties of the design
    document that concern them.

    Go maps from strings to strings are [gmap string string]; Go slices are
    lists; a pointer that may be [nil] is an [option]; Go's [int] is [Z]
    (with the 64-bit range written out where the code depends on it). *)

From Stdlib Require Import ZArith List Ascii String Lia.
From stdpp Require Import base option gmap strings list fin_maps.

Local Open Scope string_scope.
Local Open Scope Z_scope.

(** ** The parts of Go's [strconv] the file calls *)

Module Strconv.

(** The ASCII character of a decimal digit [0 <= d < 10]. *)
Definition digit_char (d : Z) : ascii := ascii_of_nat (Z.to_nat (48 + d)).

(** [ch -= '0'; if ch > 9 { syntax error }]. *)
Definition digit_val (c : ascii) : option Z :=
  let n := Z.of_nat (nat_of_ascii c) in
  if (48 <=? n) && (n <=? 57) then Some (n - 48) else None.

(** The digit loop of [formatBits] in base 10: the last digit is
    [u mod 10], the digits before it are those of [u / 10]. *)
Fixpoint format_digits (fuel : nat) (u : Z) : string :=
  match fuel with
  | O => ""
  | S fuel' =>
      if u <? 10 then String (digit_char u) ""
      else format_digits fuel' (u / 10) +:+ String (digit_char (u mod 10)) ""
  end.

(** A number [u >= 0] has at most [log2 u + 1] decimal digits. *)
Definition digits_fuel (u : Z) : nat := S (Z.to_nat (Z.log2 u)).

(** [strconv.Itoa]: the decimal representation, with a leading [-] for a
    negative number. *)
Definition Itoa (i : Z) : string :=
  if i <? 0 then String "-" (format_digits (digits_fuel (- i)) (- i))
  else format_digits (digits_fuel i) i.

Inductive NumError := ErrSyntax | ErrRange.

(** [n = n*10 + int(ch)] over the bytes of the string. *)
Fixpoint parse_digits (s : string) (acc : Z) : option Z :=
  match s with
  | EmptyString => Some acc
  | String c s' =>
      match digit_val c with
      | Some d => parse_digits s' (acc * 10 + d)
      | None => None
      end
  end.

(** [maxUint64], the largest value of [uint64]. *)
Definition maxUint64 : Z := 2 ^ 64 - 1.

(** One round of the loop of [ParseUint] in base 10 with 64 bits: a byte
    that is not a digit is a syntax error with value [0]; when the
    accumulator is at the cutoff [maxUint64/10 + 1], or the new value
    exceeds [maxUint64], the result is [maxUint64] with a range error, and
    the bytes that follow are not looked at. *)
Definition parseUint_step (n : Z) (c : ascii) : Z * option NumError :=
  match digit_val c with
  | None => (0, Some ErrSyntax)
  | Some d =>
      if maxUint64 / 10 + 1 <=? n then (maxUint64, Some ErrRange)
      else
        let n1 := n * 10 + d in
        if maxUint64 <? n1 then (maxUint64, Some ErrRange) else (n1, None)
  end.

Fixpoint parseUint_loop (s : string) (n : Z) : Z * option NumError :=
  match s with
  | EmptyString => (n, None)
  | String c s' =>
      match parseUint_step n c with
      | (n1, None) => parseUint_loop s' n1
      | (v, Some e) => (v, Some e)
      end
  end.

(** [strconv.ParseUint(s, 10, 64)]. *)
Definition ParseUint (s : string) : Z * option NumError :=
  match s with
  | EmptyString => (0, Some ErrSyntax)
  | _ => parseUint_loop s 0
  end.

(** [strconv.ParseInt(s, 10, 0)] on a 64-bit platform: an optional sign,
    then [ParseUint]; a syntax error gives [0], and a value outside the
    range of [int64], or a range error of [ParseUint], gives the nearest
    bound with a range error. *)
Definition ParseInt (s : string) : Z * option NumError :=
  match s with
  | EmptyString => (0, Some ErrSyntax)
  | String c r =>
      let '(neg, body) :=
        if Ascii.eqb c "+" then (false, r)
        else if Ascii.eqb c "-" then (true, r)
        else (false, s) in
      match ParseUint body with
      | (_, Some ErrSyntax) => (0, Some ErrSyntax)
      | (un, _) =>
          if negb neg && (2 ^ 63 <=? un) then (2 ^ 63 - 1, Some ErrRange)
          else if neg && (2 ^ 63 <? un) then (- 2 ^ 63, Some ErrRange)
          else (if neg then - un else un, None)
      end
  end.

(** The fast path of [strconv.Atoi], taken for a string of 1 to 18 bytes:
    an optional sign, then the digits, without a range check. *)
Definition atoi_fast (s : string) : Z * option NumError :=
  match s with
  | EmptyString => (0, Some ErrSyntax)
  | String c r =>
      let signed := Ascii.eqb c "-" || Ascii.eqb c "+" in
      let body := if signed then r else s in
      if signed && (String.length body <? 1)%nat then (0, Some ErrSyntax)
      else
        match parse_digits body 0 with
        | None => (0, Some ErrSyntax)
        | Some n => (if Ascii.eqb c "-" then - n else n, None)
        end
  end.

(** [strconv.Atoi] on a 64-bit platform: the fast path for short strings,
    [ParseInt] for the empty string and for strings of 19 bytes or more. *)
Definition Atoi (s : string) : Z * option NumError :=
  let sLen := String.length s in
  if ((0 <? sLen) && (sLen <? 19))%nat then atoi_fast s else ParseInt s.

(** The conversion [int32(x)]: the low 32 bits, read as a signed number. *)
Definition int32 (x : Z) : Z := (x + 2 ^ 31) mod 2 ^ 32 - 2 ^ 31.

End Strconv.

(** ** Package [utils] *)

Module utils.

(** Modelled from the spec: [utils.Includes] of [pkg/utils], which the
    file calls but which is declared elsewhere; a key is "present in the
    disallow-list" when some element of the slice equals it. *)
Fixpoint Includes (slice : list string) (value : string) : bool :=
  match slice with
  | [] => false
  | v :: rest => if String.eqb v value then true else Includes rest value
  end.

(** Modelled from the spec: [utils.Filter] of [pkg/utils]; "produce a
    filtered copy retaining only keys" accepted by the predicate.  The
    result is a fresh map, never [nil]. *)
Definition Filter (origin : gmap string string) (predicate : string → bool)
  : gmap string string :=
  filter (λ kv, Is_true (predicate kv.1)) origin.

(** Modelled from the spec: [utils.Union] of [pkg/utils]; the "union" of
    the maps, a later map winning on a key that two of them bind. *)
Definition Union (maps : list (gmap string string)) : gmap string string :=
  foldl (λ result m, m ∪ result) ∅ maps.

End utils.

(** ** Package [constants] *)

Module constants.

(** The string constants of [pkg/constants] that the reconciler uses.
    Their values are declared outside the verified file, so the
    development is parametric in them. *)
Class Constants := {
  ServiceAnnotationDisallowedList : list string;
  StorageInitializerSourceUriInternalAnnotationKey : string;
  LoggerInternalAnnotationKey : string;
  LoggerSinkUrlInternalAnnotationKey : string;
  LoggerModeInternalAnnotationKey : string;
  BatcherInternalAnnotationKey : string;
  BatcherMaxBatchSizeInternalAnnotationKey : string;
  BatcherMaxLatencyInternalAnnotationKey : string;
  BatcherTimeoutInternalAnnotationKey : string;
  InferenceServiceDefaultLoggerPort : string;
  InferenceServiceDefaultBatcherPort : string;
  InferenceServicePodLabelKey : string;
  KServiceComponentLabel : string;
}.

(** The annotation keys the reconciler writes. *)
Definition InternalAnnotationKeys `{Constants} : list string :=
  [ StorageInitializerSourceUriInternalAnnotationKey;
    LoggerInternalAnnotationKey;
    LoggerSinkUrlInternalAnnotationKey;
    LoggerModeInternalAnnotationKey;
    BatcherInternalAnnotationKey;
    BatcherMaxBatchSizeInternalAnnotationKey;
    BatcherMaxLatencyInternalAnnotationKey;
    BatcherTimeoutInternalAnnotationKey ].

End constants.

(** ** The Kubernetes API types the file touches *)

Definition error := string.

Module metav1.

Record ObjectMeta := {
  Name : string;
  Namespace : string;
  Labels : gmap string string;
  Annotations : gmap string string;
  DeletionTimestamp : option Z;
}.

(** The zero value of the struct. *)
Definition ObjectMeta_zero : ObjectMeta :=
  {| Name := ""; Namespace := ""; Labels := ∅; Annotations := ∅;
     DeletionTimestamp := None |}.

End metav1.

Module v1.

Record ContainerPort := {
  PortName : string;
  HostPort : Z;
  containerPort : Z;
  Protocol : string;
  HostIP : string;
}.

Record EnvVar := { EnvName : string; EnvValue : string }.

Record Container := {
  Name : string;
  Image : string;
  Command : list string;
  Args : list string;
  Env : list EnvVar;
  Ports : list ContainerPort;
}.

Record Volume := { VolumeName : string; VolumeSource : string }.

Record PodSpec := {
  Volumes : list Volume;
  InitContainers : list Container;
  Containers : list Container;
  ServiceAccountName : string;
  NodeSelector : gmap string string;
}.

Record PodTemplateSpec := {
  ObjectMeta : metav1.ObjectMeta;
  Spec : PodSpec;
}.

(** [container.Ports = ports]. *)
Definition set_Ports (container : Container) (ports : list ContainerPort) : Container :=
  {| Name := Name container; Image := Image container;
     Command := Command container; Args := Args container;
     Env := Env container; Ports := ports |}.

(** [spec.Containers = containers]. *)
Definition set_Containers (spec : PodSpec) (containers : list Container) : PodSpec :=
  {| Volumes := Volumes spec; InitContainers := InitContainers spec;
     Containers := containers;
     ServiceAccountName := ServiceAccountName spec;
     NodeSelector := NodeSelector spec |}.

(** [template.Spec = spec]. *)
Definition set_Spec (template : PodTemplateSpec) (spec : PodSpec) : PodTemplateSpec :=
  {| ObjectMeta := ObjectMeta template; Spec := spec |}.

End v1.

Module corev1.

Record ConfigMap := {
  ObjectMeta : metav1.ObjectMeta;
  Data : gmap string string;
}.

End corev1.

(** ** Package [v1beta1]: the API types of the inference service *)

Module v1beta1.

(** The declarations of [pkg/apis/serving/v1beta1] that the reconciler
    uses without looking inside them. *)
Class Declarations := {
  ComponentExtensionSpec : Type;
  InferenceServicesConfig : Type;
  ComponentStatusSpec : Type;
  (** The zero value, which indexing a Go map at a missing key yields. *)
  ComponentStatusSpec_zero : ComponentStatusSpec;
  (** The built-in runtime variants of a predictor specification. *)
  RuntimeSpecs : Type;
  (** The component kind of the predictor, a [ComponentType] string. *)
  PredictorComponent : string;
}.

Section Types.
Context `{Declarations}.

Record LoggerSpec := {
  URL : option string;
  Mode : string;
}.

Record Batcher := {
  MaxBatchSize : option Z;
  MaxLatency : option Z;
  Timeout : option Z;
}.

Record CustomPredictor := {
  PodTemplateSpec : v1.PodTemplateSpec;
}.

Record PredictorSpec := {
  Runtimes : RuntimeSpecs;
  Custom : option CustomPredictor;
  Logger : option LoggerSpec;
  Batcher' : option Batcher;
  ComponentExtensionSpec' : ComponentExtensionSpec;
}.

Record InferenceServiceSpec := {
  Predictor : PredictorSpec;
}.

Record InferenceServiceStatus := {
  Components : gmap string ComponentStatusSpec;
}.

Record InferenceService := {
  ObjectMeta : metav1.ObjectMeta;
  Spec : InferenceServiceSpec;
  Status : InferenceServiceStatus;
}.

(** [isvc.Spec.Predictor.Custom = custom]. *)
Definition set_Custom (isvc : InferenceService) (custom : option CustomPredictor)
  : InferenceService :=
  {| ObjectMeta := ObjectMeta isvc;
     Spec := {| Predictor :=
       {| Runtimes := Runtimes (Predictor (Spec isvc));
          Custom := custom;
          Logger := Logger (Predictor (Spec isvc));
          Batcher' := Batcher' (Predictor (Spec isvc));
          ComponentExtensionSpec' :=
            ComponentExtensionSpec' (Predictor (Spec isvc)) |} |};
     Status := Status isvc |}.

(** [custom.Spec.Containers = containers]. *)
Definition set_Containers (custom : CustomPredictor) (containers : list v1.Container)
  : CustomPredictor :=
  {| PodTemplateSpec :=
       v1.set_Spec (PodTemplateSpec custom)
         (v1.set_Containers (v1.Spec (PodTemplateSpec custom)) containers) |}.

(** [isvc.Status.Components = components]. *)
Definition set_Components (isvc : InferenceService)
    (components : gmap string ComponentStatusSpec) : InferenceService :=
  {| ObjectMeta := ObjectMeta isvc; Spec := Spec isvc;
     Status := {| Components := components |} |}.

(** Modelled from the spec: [PredictorSpec.GetExtensions], declared in
    [pkg/apis/serving/v1beta1]; it hands out "the predictor's extension
    configuration". *)
Definition GetExtensions (s : PredictorSpec) : ComponentExtensionSpec :=
  ComponentExtensionSpec' s.

(** Modelled from the spec: [InferenceServiceStatus.PropagateStatus],
    declared in [pkg/apis/serving/v1beta1]; it "overwrite[s] the
    parent's per-component status entry with the delegate's returned
    status snapshot", wholesale and keyed by component kind. *)
Definition PropagateStatus (isvc : InferenceService) (component : string)
    (status : ComponentStatusSpec) : InferenceService :=
  set_Components isvc (<[component := status]> (Components (Status isvc))).

End Types.

(** The [ComponentImplementation] interface and the resolution of the
    active implementation variant, both declared in
    [pkg/apis/serving/v1beta1].  [GetContainer] returns a pointer in Go;
    the reconciler dereferences it at once, so a value stands for it. *)
Class Methods `{Declarations} := {
  ComponentImplementation : Type;
  GetImplementation : PredictorSpec → ComponentImplementation;
  GetStorageUri : ComponentImplementation → option string;
  GetContainer : ComponentImplementation → metav1.ObjectMeta →
                 ComponentExtensionSpec → InferenceServicesConfig → v1.Container;
}.

End v1beta1.

Module v1beta1api.

Record TrainedModel := {
  ObjectMeta : metav1.ObjectMeta;
}.

End v1beta1api.

(** ** Package [knative]: the delegate reconciler *)

Module knative.

Section Delegate.
Context `{v1beta1.Declarations}.

(** Modelled from the spec: [knative.NewKsvcReconciler] is declared in
    [reconcilers/knative]; the delegate is built from "the object
    identity, extension spec, pod spec, and prior observed status for
    this component kind", which is the desired child resource. *)
Record KsvcReconciler := NewKsvcReconciler {
  componentMeta : metav1.ObjectMeta;
  componentExt : v1beta1.ComponentExtensionSpec;
  podSpec : v1.PodSpec;
  componentStatus : v1beta1.ComponentStatusSpec;
}.

End Delegate.

(** What lies behind the client handle: the state of the cluster, the
    owner-reference linkage of [controllerutil], and the delegate's
    [Reconcile], which reads and writes the cluster and returns either a
    status snapshot or an error. *)
Class Delegate `{v1beta1.Declarations} := {
  Cluster : Type;
  SetControllerReference : v1beta1.InferenceService → KsvcReconciler → option error;
  Reconcile : KsvcReconciler → Cluster → (error + v1beta1.ComponentStatusSpec) * Cluster;
}.

End knative.

(** ** Package [components]: the predictor reconciler *)

Module components.

Import constants v1beta1.

(** A run-time panic of the Go program. *)
Inductive panic :=
| IndexOutOfRange (index length : nat)
| NilPointerDereference.

(** How a call of [Reconcile] ends: it returns its [error] result
    ([None] is [nil]), or it panics. *)
Inductive outcome :=
| Returned (err : option error)
| Panicked (p : panic).

Inductive result (A : Type) :=
| Ok (a : A)
| Panic (p : panic).
Arguments Ok {A} a.
Arguments Panic {A} p.

Section Predictor.
Context `{Constants} `{Declarations} `{!Methods} `{!knative.Delegate}.

(** The receiver.  Its [client] and [scheme] are what the operations of
    [knative.Delegate] stand for. *)
Record Predictor := {
  inferenceServiceConfig : InferenceServicesConfig;
}.

(** *** Annotations *)

(** The map is updated in place in Go; here the updated map is returned
    next to the flag.  The map is an allocated one: at the only call site
    it is the fresh copy made by [utils.Filter]. *)
Definition addLoggerAnnotations (logger : option LoggerSpec)
    (annotations : gmap string string) : bool * gmap string string :=
  match logger with
  | Some logger =>
      let annotations := <[LoggerInternalAnnotationKey := "true"]> annotations in
      let annotations :=
        match URL logger with
        | Some url => <[LoggerSinkUrlInternalAnnotationKey := url]> annotations
        | None => annotations
        end in
      let annotations := <[LoggerModeInternalAnnotationKey := Mode logger]> annotations in
      (true, annotations)
  | None => (false, annotations)
  end.

Definition addBatcherAnnotations (batcher : option Batcher)
    (annotations : gmap string string) : bool * gmap string string :=
  match batcher with
  | Some batcher =>
      let annotations := <[BatcherInternalAnnotationKey := "true"]> annotations in
      let annotations :=
        match MaxBatchSize batcher with
        | Some n =>
            let s := Strconv.Itoa n in
            <[BatcherMaxBatchSizeInternalAnnotationKey := s]> annotations
        | None => annotations
        end in
      let annotations :=
        match MaxLatency batcher with
        | Some n =>
            let s := Strconv.Itoa n in
            <[BatcherMaxLatencyInternalAnnotationKey := s]> annotations
        | None => annotations
        end in
      let annotations :=
        match Timeout batcher with
        | Some n =>
            let s := Strconv.Itoa n in
            <[BatcherTimeoutInternalAnnotationKey := s]> annotations
        | None => annotations
        end in
      (true, annotations)
  | None => (false, annotations)
  end.

(** *** Ports *)

(** A port entry with only [ContainerPort] set. *)
Definition port_entry (port : Z) : v1.ContainerPort :=
  {| v1.PortName := ""; v1.HostPort := 0;
     v1.containerPort := Strconv.int32 port;
     v1.Protocol := ""; v1.HostIP := "" |}.

(** The argument is a pointer: [None] is [nil], and the result is what
    the pointer refers to afterwards. *)
Definition addLoggerContainerPort (container : option v1.Container)
  : option v1.Container :=
  match container with
  | Some container =>
      if (length (v1.Ports container) =? 0)%nat then
        let '(port, _) := Strconv.Atoi InferenceServiceDefaultLoggerPort in
        Some (v1.set_Ports container [port_entry port])
      else Some container
  | None => None
  end.

Definition addBatcherContainerPort (container : option v1.Container)
  : option v1.Container :=
  match container with
  | Some container =>
      if (length (v1.Ports container) =? 0)%nat then
        let '(port, _) := Strconv.Atoi InferenceServiceDefaultBatcherPort in
        Some (v1.set_Ports container [port_entry port])
      else Some container
  | None => None
  end.

(** *** The reconcile pass *)

(** The pass runs on the parent resource, which it updates in place,
    and may panic. *)
Definition M (A : Type) : Type := InferenceService → InferenceService * result A.

#[export] Instance M_ret : MRet M := λ A a isvc, (isvc, Ok a).
#[export] Instance M_bind : MBind M := λ A B f m isvc,
  match m isvc with
  | (isvc', Ok a) => f a isvc'
  | (isvc', Panic p) => (isvc', Panic p)
  end.

Definition get : M InferenceService := λ isvc, (isvc, Ok isvc).
Definition put (isvc : InferenceService) : M unit := λ _, (isvc, Ok tt).
Definition throw {A} (p : panic) : M A := λ isvc, (isvc, Panic p).

(** [isvc.Spec.Predictor.Custom], dereferenced. *)
Definition derefCustom : M CustomPredictor :=
  isvc ← get;
  match Custom (v1beta1.Predictor (Spec isvc)) with
  | Some custom => mret custom
  | None => throw NilPointerDereference
  end.

(** [isvc.Spec.Predictor.Custom.Spec.Containers[0] = container]. *)
Definition setFirstContainer (container : v1.Container) : M unit :=
  custom ← derefCustom;
  let containers := v1.Containers (v1.Spec (PodTemplateSpec custom)) in
  if decide (0 < length containers)%nat then
    isvc ← get;
    put (set_Custom isvc (Some (set_Containers custom (<[0%nat := container]> containers))))
  else throw (IndexOutOfRange 0 (length containers)).

(** [patch(&isvc.Spec.Predictor.Custom.Spec.Containers[0])]. *)
Definition patchFirstContainer (patch : option v1.Container → option v1.Container)
  : M unit :=
  custom ← derefCustom;
  let containers := v1.Containers (v1.Spec (PodTemplateSpec custom)) in
  match containers !! 0%nat with
  | Some container =>
      match patch (Some container) with
      | Some container' => setFirstContainer container'
      | None => mret tt
      end
  | None => throw (IndexOutOfRange 0 (length containers))
  end.

(** The annotation map of the child resource, and the two feature
    flags (the statements of [Reconcile] before [objectMeta]). *)
Definition synthesizeAnnotations (isvc : InferenceService)
  : bool * bool * gmap string string :=
  let predictor := GetImplementation (v1beta1.Predictor (Spec isvc)) in
  let annotations :=
    utils.Filter (metav1.Annotations (ObjectMeta isvc))
      (λ key, negb (utils.Includes ServiceAnnotationDisallowedList key)) in
  let annotations :=
    match GetStorageUri predictor with
    | Some sourceURI =>
        <[StorageInitializerSourceUriInternalAnnotationKey := sourceURI]> annotations
    | None => annotations
    end in
  let '(hasInferenceLogging, annotations) :=
    addLoggerAnnotations (Logger (v1beta1.Predictor (Spec isvc))) annotations in
  let '(hasInferenceBatcher, annotations) :=
    addBatcherAnnotations (Batcher' (v1beta1.Predictor (Spec isvc))) annotations in
  (hasInferenceLogging, hasInferenceBatcher, annotations).

(** The object metadata of the child resource (the literal [objectMeta]). *)
Definition synthesizeObjectMeta (isvc : InferenceService)
    (annotations : gmap string string) : metav1.ObjectMeta :=
  {| metav1.Name := metav1.Name (ObjectMeta isvc) +:+ "-" +:+ PredictorComponent;
     metav1.Namespace := metav1.Namespace (ObjectMeta isvc);
     metav1.Labels :=
       utils.Union [ metav1.Labels (ObjectMeta isvc);
                     <[KServiceComponentLabel := PredictorComponent]>
                       (<[InferenceServicePodLabelKey := metav1.Name (ObjectMeta isvc)]> ∅) ];
     metav1.Annotations := annotations;
     metav1.DeletionTimestamp := None |}.

(** The container of the active implementation becomes the first
    container of the pod template: of a new template when the parent
    has no override, of the override otherwise (the [if]/[else] on
    [isvc.Spec.Predictor.Custom == nil]). *)
Definition installContainer (p : Predictor) (predictor : ComponentImplementation)
  : M unit :=
  isvc ← get;
  match Custom (v1beta1.Predictor (Spec isvc)) with
  | None =>
      let container :=
        GetContainer predictor (ObjectMeta isvc)
          (GetExtensions (v1beta1.Predictor (Spec isvc))) (inferenceServiceConfig p) in
      put (set_Custom isvc (Some
        {| PodTemplateSpec :=
             {| v1.ObjectMeta := metav1.ObjectMeta_zero;
                v1.Spec :=
                  {| v1.Volumes := []; v1.InitContainers := [];
                     v1.Containers := [container];
                     v1.ServiceAccountName := "";
                     v1.NodeSelector := ∅ |} |} |}))
  | Some _ =>
      let container :=
        GetContainer predictor (ObjectMeta isvc)
          (GetExtensions (v1beta1.Predictor (Spec isvc))) (inferenceServiceConfig p) in
      setFirstContainer container
  end.

(** One port patch per enabled feature, logging first. *)
Definition patchPorts (hasInferenceLogging hasInferenceBatcher : bool) : M unit :=
  (if hasInferenceLogging then patchFirstContainer addLoggerContainerPort
   else mret tt);;
  (if hasInferenceBatcher then patchFirstContainer addBatcherContainerPort
   else mret tt).

(** The delegate for the desired child resource. *)
Definition newKsvcReconciler (objectMeta : metav1.ObjectMeta)
  : M knative.KsvcReconciler :=
  isvc ← get;
  custom ← derefCustom;
  mret (knative.NewKsvcReconciler objectMeta
          (ComponentExtensionSpec' (v1beta1.Predictor (Spec isvc)))
          (v1.Spec (PodTemplateSpec custom))
          (default ComponentStatusSpec_zero
             (Components (Status isvc) !! PredictorComponent))).

(** The first part of [Reconcile], up to the construction of the
    delegate: annotations, metadata, container, ports. *)
Definition synthesize (p : Predictor) : M knative.KsvcReconciler :=
  isvc ← get;
  let predictor := GetImplementation (v1beta1.Predictor (Spec isvc)) in
  let '(hasInferenceLogging, hasInferenceBatcher, annotations) :=
    synthesizeAnnotations isvc in
  let objectMeta := synthesizeObjectMeta isvc annotations in
  installContainer p predictor;;
  patchPorts hasInferenceLogging hasInferenceBatcher;;
  newKsvcReconciler objectMeta.

(** [Predictor.Reconcile]: the parent resource and the cluster after the
    call, and how the call ended. *)
Definition Reconcile (p : Predictor) (isvc : InferenceService)
    (cluster : knative.Cluster) : InferenceService * knative.Cluster * outcome :=
  match synthesize p isvc with
  | (isvc, Panic pn) => (isvc, cluster, Panicked pn)
  | (isvc, Ok r) =>
      match knative.SetControllerReference isvc r with
      | Some err => (isvc, cluster, Returned (Some err))
      | None =>
          match knative.Reconcile r cluster with
          | (inl err, cluster) => (isvc, cluster, Returned (Some err))
          | (inr status, cluster) =>
              (PropagateStatus isvc PredictorComponent status, cluster, Returned None)
          end
      end
  end.

(** *** What the pass computes, in closed form *)

(** The container after the two conditional port patches. *)
Definition portsPatched (hasInferenceLogging hasInferenceBatcher : bool)
    (container : v1.Container) : v1.Container :=
  let container :=
    if hasInferenceLogging
    then default container (addLoggerContainerPort (Some container))
    else container in
  if hasInferenceBatcher
  then default container (addBatcherContainerPort (Some container))
  else container.

(** The container that a pass installs as the first container. *)
Definition desiredContainer (p : Predictor) (isvc : InferenceService) : v1.Container :=
  let '(hasInferenceLogging, hasInferenceBatcher, _) := synthesizeAnnotations isvc in
  portsPatched hasInferenceLogging hasInferenceBatcher
    (GetContainer (GetImplementation (v1beta1.Predictor (Spec isvc)))
       (ObjectMeta isvc) (GetExtensions (v1beta1.Predictor (Spec isvc)))
       (inferenceServiceConfig p)).

(** The pod template that a pass builds when there is no override. *)
Definition freshTemplate (container : v1.Container) : CustomPredictor :=
  {| PodTemplateSpec :=
       {| v1.ObjectMeta := metav1.ObjectMeta_zero;
          v1.Spec :=
            {| v1.Volumes := []; v1.InitContainers := [];
               v1.Containers := [container];
               v1.ServiceAccountName := "";
               v1.NodeSelector := ∅ |} |} |}.

(** [isvc.Spec.Predictor.Custom.Spec.Containers[0]], when there is one. *)
Definition firstContainer (isvc : InferenceService) : option v1.Container :=
  custom ← Custom (v1beta1.Predictor (Spec isvc));
  head (v1.Containers (v1.Spec (PodTemplateSpec custom))).

(** The container that the active implementation builds for the parent,
    before the port patches. *)
Definition builtContainer (p : Predictor) (isvc : InferenceService) : v1.Container :=
  GetContainer (GetImplementation (v1beta1.Predictor (Spec isvc)))
    (ObjectMeta isvc) (GetExtensions (v1beta1.Predictor (Spec isvc)))
    (inferenceServiceConfig p).

(** The annotation keys that a pass writes for this parent. *)
Definition writtenKeys (isvc : InferenceService) : list string :=
  (if GetStorageUri (GetImplementation (v1beta1.Predictor (Spec isvc))) is Some _
   then [StorageInitializerSourceUriInternalAnnotationKey] else []) ++
  match Logger (v1beta1.Predictor (Spec isvc)) with
  | Some logger =>
      [LoggerInternalAnnotationKey; LoggerModeInternalAnnotationKey] ++
      (if URL logger is Some _ then [LoggerSinkUrlInternalAnnotationKey] else [])
  | None => []
  end ++
  match Batcher' (v1beta1.Predictor (Spec isvc)) with
  | Some batcher =>
      [BatcherInternalAnnotationKey] ++
      (if MaxBatchSize batcher is Some _ then [BatcherMaxBatchSizeInternalAnnotationKey] else []) ++
      (if MaxLatency batcher is Some _ then [BatcherMaxLatencyInternalAnnotationKey] else []) ++
      (if Timeout batcher is Some _ then [BatcherTimeoutInternalAnnotationKey] else [])
  | None => []
  end.

End Predictor.

End components.

(** ** Package [multimodelconfig]: the config-map reconciler *)

Module multimodelconfig.

Section ConfigMapReconciler.
(** The state of the cluster behind the client handle. *)
Variable Cluster : Type.

(** The one operation of [client.Client] the reconciler calls: it
    returns its [error] ([None] is [nil]) and the cluster after it. *)
Record Client := {
  Create : corev1.ConfigMap → Cluster → option error * Cluster;
}.

Record ConfigMapReconciler := NewConfigMapReconciler {
  client : Client;
}.

Definition Reconcile (c : ConfigMapReconciler) (desired : corev1.ConfigMap)
    (trainedModel : v1beta1api.TrainedModel) (cluster : Cluster)
  : option error * Cluster :=
  let 'tt :=
    match metav1.DeletionTimestamp (v1beta1api.ObjectMeta trainedModel) with
    | Some _ => tt  (* the model is being deleted: nothing is done yet *)
    | None => tt    (* created or updated: nothing is done yet *)
    end in
  match Create (client c) desired cluster with
  | (Some err, cluster) => (Some err, cluster)
  | (None, cluster) => (None, cluster)
  end.

End ConfigMapReconciler.

Arguments Create {Cluster} _ _ _.
Arguments client {Cluster} _.
Arguments Reconcile {Cluster} _ _ _ _.

End multimodelconfig.

(** ** A concrete instance, on which the definitions can be run

    The constants follow [pkg/constants]: the disallow-list holds the two
    autoscaling keys, the storage-initializer source-URI key and kubectl's
    last-applied-configuration key. *)

Module fixture.

Import constants v1beta1.

Definition consts : Constants := {|
  ServiceAnnotationDisallowedList :=
    [ "autoscaling.knative.dev/minScale";
      "autoscaling.knative.dev/maxScale";
      "internal.serving.kubeflow.org/storage-initializer-sourceuri";
      "kubectl.kubernetes.io/last-applied-configuration" ];
  StorageInitializerSourceUriInternalAnnotationKey :=
    "internal.serving.kubeflow.org/storage-initializer-sourceuri";
  LoggerInternalAnnotationKey := "internal.serving.kubeflow.org/logger";
  LoggerSinkUrlInternalAnnotationKey := "internal.serving.kubeflow.org/logger-sink-url";
  LoggerModeInternalAnnotationKey := "internal.serving.kubeflow.org/logger-mode";
  BatcherInternalAnnotationKey := "internal.serving.kubeflow.org/batcher";
  BatcherMaxBatchSizeInternalAnnotationKey :=
    "internal.serving.kubeflow.org/batcher-max-batchsize";
  BatcherMaxLatencyInternalAnnotationKey :=
    "internal.serving.kubeflow.org/batcher-max-latency";
  BatcherTimeoutInternalAnnotationKey := "internal.serving.kubeflow.org/batcher-timeout";
  InferenceServiceDefaultLoggerPort := "9081";
  InferenceServiceDefaultBatcherPort := "9082";
  InferenceServicePodLabelKey := "serving.kubeflow.org/inferenceservice";
  KServiceComponentLabel := "component";
|}.

(** The extension and status records are strings here, the configuration
    is an image name, and the only built-in runtime is described by its
    storage URI. *)
Definition decls : Declarations := {|
  ComponentExtensionSpec := string;
  InferenceServicesConfig := string;
  ComponentStatusSpec := string;
  ComponentStatusSpec_zero := "";
  RuntimeSpecs := option string;
  PredictorComponent := "predictor";
|}.

Definition container (name image : string) (ports : list v1.ContainerPort)
  : v1.Container :=
  {| v1.Name := name; v1.Image := image; v1.Command := []; v1.Args := [];
     v1.Env := []; v1.Ports := ports |}.

(** A built-in runtime takes precedence over the custom override and
    builds its container from the configuration; the custom variant
    hands out the first container of the override. *)
Definition methods : @Methods decls := {|
  ComponentImplementation := @PredictorSpec decls;
  GetImplementation := λ s, s;
  GetStorageUri := λ s, Runtimes s;
  GetContainer := λ s meta ext config,
    match Runtimes s, Custom s with
    | None, Some custom =>
        default (container "kfserving-container" config [])
          (head (v1.Containers (v1.Spec (PodTemplateSpec custom))))
    | _, _ => container "kfserving-container" config []
    end;
|}.

(** A delegate that records what it applied and refuses the namespace
    [forbidden]; ownership cannot be established for a nameless child. *)
Definition delegate : @knative.Delegate decls := {|
  knative.Cluster := list (@knative.KsvcReconciler decls);
  knative.SetControllerReference := λ isvc r,
    if String.eqb (metav1.Name (knative.componentMeta r)) "-predictor"
    then Some "owner reference: resource name may not be empty"
    else None;
  knative.Reconcile := λ r cluster,
    if String.eqb (metav1.Namespace (knative.componentMeta r)) "forbidden"
    then (inl "services.serving.knative.dev is forbidden", cluster)
    else (inr ("http://" +:+ metav1.Name (knative.componentMeta r)), r :: cluster);
|}.

Definition p : @components.Predictor decls :=
  @components.Build_Predictor decls "sklearnserver:v0.5.0".

Definition isvc (namespace : string) (annotations : gmap string string)
    (runtime : option string) (custom : option (@CustomPredictor))
    (logger : option LoggerSpec) (batcher : option Batcher)
    (status : gmap string string) : @InferenceService decls :=
  @Build_InferenceService decls
    {| metav1.Name := "iris"; metav1.Namespace := namespace;
       metav1.Labels := {[ "team" := "ml" ]};
       metav1.Annotations := annotations;
       metav1.DeletionTimestamp := None |}
    (@Build_InferenceServiceSpec decls
       (@Build_PredictorSpec decls runtime custom logger batcher "minReplicas=1"))
    (@Build_InferenceServiceStatus decls status).

Definition podTemplate (containers : list v1.Container) (volumes : list v1.Volume)
  : CustomPredictor :=
  {| PodTemplateSpec :=
       {| v1.ObjectMeta := metav1.ObjectMeta_zero;
          v1.Spec :=
            {| v1.Volumes := volumes; v1.InitContainers := [];
               v1.Containers := containers;
               v1.ServiceAccountName := "models"; v1.NodeSelector := ∅ |} |} |}.

(** A client over a store of config maps keyed by namespace and name:
    creating an object that is already there fails. *)
Definition storeClient
  : multimodelconfig.Client (gmap (string * string) corev1.ConfigMap) := {|
  multimodelconfig.Create := λ desired store,
    let key := (metav1.Namespace (corev1.ObjectMeta desired),
                metav1.Name (corev1.ObjectMeta desired)) in
    match store !! key with
    | Some _ => (Some "configmaps already exists", store)
    | None => (None, <[key := desired]> store)
    end;
|}.

Definition configMap (name : string) (data : gmap string string) : corev1.ConfigMap :=
  {| corev1.ObjectMeta :=
       {| metav1.Name := name; metav1.Namespace := "default"; metav1.Labels := ∅;
          metav1.Annotations := ∅; metav1.DeletionTimestamp := None |};
     corev1.Data := data |}.

Definition trainedModel (deletion : option Z) : v1beta1api.TrainedModel :=
  {| v1beta1api.ObjectMeta :=
       {| metav1.Name := "model-a"; metav1.Namespace := "default"; metav1.Labels := ∅;
          metav1.Annotations := ∅; metav1.DeletionTimestamp := deletion |} |}.

(** The pass on the concrete instance. *)
Definition reconcile := @components.Reconcile consts decls methods delegate p.
Definition synth := @components.synthesize consts decls methods p.
Definition annotationsOf (i : @InferenceService decls) : gmap string string :=
  (@components.synthesizeAnnotations consts decls methods i).2.

Definition requestLogger : LoggerSpec := {| URL := None; Mode := "request" |}.
Definition smallBatcher : Batcher :=
  {| MaxBatchSize := Some 32; MaxLatency := Some 100; Timeout := Some 60 |}.
Definition sidecar : v1.Container :=
  container "proxy" "envoy:1.16"
    [ {| v1.PortName := "http"; v1.HostPort := 0; v1.containerPort := 8080;
         v1.Protocol := "TCP"; v1.HostIP := "" |} ].
Definition modelVolume : v1.Volume :=
  {| v1.VolumeName := "model-store"; v1.VolumeSource := "pvc:models" |}.

(** A built-in runtime with logger and batcher; a custom predictor with a
    side container and a volume; a custom predictor without containers. *)
Definition builtinService (namespace : string) (status : gmap string string) :=
  isvc namespace {[ "owner" := "ml-team" ]} (Some "gs://models/iris") None
    (Some requestLogger) (Some smallBatcher) status.
Definition customService :=
  isvc "default" ∅ None
    (Some (podTemplate [container "user-model" "registry/model:1" []; sidecar]
                       [modelVolume]))
    (Some requestLogger) None ∅.
Definition emptyOverrideService :=
  isvc "default" ∅ None (Some (podTemplate [] [modelVolume])) None None ∅.

(** The constants with other well-known ports. *)
Definition constsWithPorts (loggerPort batcherPort : string) : Constants := {|
  ServiceAnnotationDisallowedList := @ServiceAnnotationDisallowedList consts;
  StorageInitializerSourceUriInternalAnnotationKey :=
    @StorageInitializerSourceUriInternalAnnotationKey consts;
  LoggerInternalAnnotationKey := @LoggerInternalAnnotationKey consts;
  LoggerSinkUrlInternalAnnotationKey := @LoggerSinkUrlInternalAnnotationKey consts;
  LoggerModeInternalAnnotationKey := @LoggerModeInternalAnnotationKey consts;
  BatcherInternalAnnotationKey := @BatcherInternalAnnotationKey consts;
  BatcherMaxBatchSizeInternalAnnotationKey :=
    @BatcherMaxBatchSizeInternalAnnotationKey consts;
  BatcherMaxLatencyInternalAnnotationKey := @BatcherMaxLatencyInternalAnnotationKey consts;
  BatcherTimeoutInternalAnnotationKey := @BatcherTimeoutInternalAnnotationKey consts;
  InferenceServiceDefaultLoggerPort := loggerPort;
  InferenceServiceDefaultBatcherPort := batcherPort;
  InferenceServicePodLabelKey := @InferenceServicePodLabelKey consts;
  KServiceComponentLabel := @KServiceComponentLabel consts;
|}.

(** A logger with a sink, a built-in runtime without logger and batcher, and
    a parent that carries labels and a status of its own. *)
Definition sinkLogger : LoggerSpec :=
  {| URL := Some "http://broker.default/events"; Mode := "all" |}.
Definition plainService :=
  isvc "default" {[ "owner" := "ml-team" ]} (Some "gs://models/iris") None None None
    {[ "transformer" := "http://iris-transformer" ]}.

End fixture.

(** ** Proof automation *)

(** From [NoDup] of the list of written keys to the inequalities between
    its elements. *)
Ltac distinct_keys Hkeys :=
  let H := fresh "Hnd" in
  pose proof Hkeys as H;
  unfold constants.InternalAnnotationKeys in H;
  repeat (apply NoDup_cons in H as [? H]);
  repeat match goal with
         | Hx : _ ∉ _ :: _ |- _ => apply not_elem_of_cons in Hx as [? Hx]
         end.

(** A decidable closed proposition, by evaluation. *)
Ltac by_computation := apply (bool_decide_unpack _); vm_compute; exact I.

(** * Properties *)

(** ** Decimal conversion *)

Section StrconvFacts.
Import Strconv.

Lemma digit_cases (d : Z) :
  0 <= d < 10 →
  d = 0 ∨ d = 1 ∨ d = 2 ∨ d = 3 ∨ d = 4 ∨ d = 5 ∨ d = 6 ∨ d = 7 ∨ d = 8 ∨ d = 9.
Proof. lia. Qed.

Lemma digit_val_char (d : Z) : 0 <= d < 10 → digit_val (digit_char d) = Some d.
Proof.
  intros Hd. destruct (digit_cases d Hd) as [->|[->|[->|[->|[->|[->|[->|[->|[->| ->]]]]]]]]];
    reflexivity.
Qed.

Lemma parse_digits_snoc (s : string) (c : ascii) (acc : Z) :
  parse_digits (s +:+ String c "") acc =
  match parse_digits s acc with
  | Some v => match digit_val c with Some d => Some (v * 10 + d) | None => None end
  | None => None
  end.
Proof.
  revert acc. induction s as [|c' s IH]; intros acc; simpl.
  - destruct (digit_val c); reflexivity.
  - destruct (digit_val c'); [apply IH | reflexivity].
Qed.

(** Reading back the digits that were written gives the number. *)
Lemma parse_format_digits (fuel : nat) (u : Z) :
  0 <= u < 2 ^ Z.of_nat fuel → parse_digits (format_digits fuel u) 0 = Some u.
Proof.
  revert u. induction fuel as [|fuel IH]; intros u Hu.
  - simpl in *. f_equal; lia.
  - cbn [format_digits]. destruct (Z.ltb_spec u 10) as [Hlt|Hge].
    + cbn [parse_digits]. rewrite digit_val_char by lia. f_equal; lia.
    + rewrite parse_digits_snoc, IH.
      * rewrite digit_val_char by (apply Z.mod_pos_bound; lia).
        f_equal. pose proof (Z.div_mod u 10). lia.
      * rewrite Nat2Z.inj_succ, Z.pow_succ_r in Hu by lia.
        split; [apply Z.div_pos; lia|].
        apply Z.div_lt_upper_bound; lia.
Qed.

(** The digits of a number start with a digit. *)
Lemma format_digits_head (fuel : nat) (u : Z) :
  0 <= u → ∃ d r, 0 <= d < 10 ∧ format_digits (S fuel) u = String (digit_char d) r.
Proof.
  revert u. induction fuel as [|fuel IH]; intros u Hu.
  - cbn [format_digits]. destruct (Z.ltb_spec u 10).
    + exists u, "". split; [lia | reflexivity].
    + exists (u mod 10), "". split; [apply Z.mod_pos_bound; lia | reflexivity].
  - remember (S fuel) as f eqn:Hf. cbn [format_digits].
    destruct (Z.ltb_spec u 10).
    + exists u, "". split; [lia | reflexivity].
    + subst f. destruct (IH (u / 10)) as (d & r & Hd & ->); [apply Z.div_pos; lia|].
      exists d, (r +:+ String (digit_char (u mod 10)) ""). split; [done | reflexivity].
Qed.

Lemma digits_fuel_enough (u : Z) : 0 <= u → 0 <= u < 2 ^ Z.of_nat (digits_fuel u).
Proof.
  intros Hu. split; [done|]. unfold digits_fuel.
  rewrite Nat2Z.inj_succ, Z2Nat.id by apply Z.log2_nonneg.
  destruct (Z.eq_dec u 0) as [->|Hne]; [reflexivity|].
  apply Z.log2_spec. lia.
Qed.

(** A digit is not a sign. *)
Lemma digit_not_sign (c : ascii) (d : Z) :
  digit_val c = Some d → Ascii.eqb c "+" = false ∧ Ascii.eqb c "-" = false.
Proof.
  intros Hc. destruct c as [[] [] [] [] [] [] [] []];
    first [ vm_compute in Hc; discriminate Hc | split; reflexivity ].
Qed.

Lemma parseUint_loop_snoc (s : string) (c : ascii) (n : Z) :
  parseUint_loop (s +:+ String c "") n =
  match parseUint_loop s n with
  | (v, None) => parseUint_step v c
  | (v, Some e) => (v, Some e)
  end.
Proof.
  revert n. induction s as [|c' s IH]; intros n; simpl.
  - by destruct (parseUint_step n c) as [v [e|]].
  - destruct (parseUint_step n c') as [v [e|]]; [reflexivity | apply IH].
Qed.

(** [ParseUint] reads back the digits of every [uint64]. *)
Lemma parseUint_format_digits (fuel : nat) (u : Z) :
  0 <= u < 2 ^ Z.of_nat fuel → u <= maxUint64 →
  parseUint_loop (format_digits fuel u) 0 = (u, None).
Proof.
  unfold maxUint64. revert u. induction fuel as [|fuel IH]; intros u Hu Hmax.
  - simpl in *. f_equal; lia.
  - cbn [format_digits]. destruct (Z.ltb_spec u 10) as [Hlt|Hge].
    + cbn [parseUint_loop]. unfold parseUint_step. rewrite digit_val_char by lia.
      unfold maxUint64.
      destruct (Z.leb_spec ((2 ^ 64 - 1) `div` 10 + 1) 0) as [Hc|_]; [vm_compute in Hc; done|].
      destruct (Z.ltb_spec (2 ^ 64 - 1) (0 * 10 + u)); [lia|]. cbn. f_equal; lia.
    + assert (0 <= u `div` 10 < 2 ^ Z.of_nat fuel) as Hdiv.
      { rewrite Nat2Z.inj_succ, Z.pow_succ_r in Hu by lia.
        split; [apply Z.div_pos; lia|]. apply Z.div_lt_upper_bound; lia. }
      pose proof (Z.div_mod u 10 ltac:(lia)) as Hdm.
      pose proof (Z.mod_pos_bound u 10 ltac:(lia)) as Hmod.
      rewrite parseUint_loop_snoc, IH by lia.
      unfold parseUint_step. rewrite digit_val_char by lia. unfold maxUint64.
      change ((2 ^ 64 - 1) `div` 10 + 1) with 1844674407370955162.
      destruct (Z.leb_spec 1844674407370955162 (u `div` 10)); [lia|].
      destruct (Z.ltb_spec (2 ^ 64 - 1) (u `div` 10 * 10 + u `mod` 10)); [lia|].
      f_equal; lia.
Qed.

Lemma ParseInt_Itoa (n : Z) : - 2 ^ 63 <= n < 2 ^ 63 → ParseInt (Itoa n) = (n, None).
Proof.
  intros Hn. unfold Itoa. destruct (Z.ltb_spec n 0) as [Hneg|Hpos].
  - destruct (format_digits_head (Z.to_nat (Z.log2 (- n))) (- n)) as (d & r & Hd & Hr);
      [lia|].
    pose proof (parseUint_format_digits (digits_fuel (- n)) (- n)
                  (digits_fuel_enough (- n) ltac:(lia)) ltac:(unfold maxUint64; lia)) as Hp.
    unfold digits_fuel in *. cbn [ParseInt]. change (Ascii.eqb "-" "+") with false.
    change (Ascii.eqb "-" "-") with true. cbv iota. unfold ParseUint.
    rewrite Hr in *. rewrite Hp. cbn [negb andb].
    destruct (Z.ltb_spec (2 ^ 63) (- n)); [lia|]. f_equal; lia.
  - destruct (format_digits_head (Z.to_nat (Z.log2 n)) n) as (d & r & Hd & Hr); [lia|].
    pose proof (parseUint_format_digits (digits_fuel n) n
                  (digits_fuel_enough n Hpos) ltac:(unfold maxUint64; lia)) as Hp.
    unfold digits_fuel in *. rewrite Hr in *. cbn [ParseInt].
    destruct (digit_not_sign _ d (digit_val_char d Hd)) as [-> ->]. cbv iota.
    unfold ParseUint. rewrite Hp. cbn [negb andb].
    destruct (Z.leb_spec (2 ^ 63) n); [lia | reflexivity].
Qed.

Lemma atoi_fast_Itoa (n : Z) : atoi_fast (Itoa n) = (n, None).
Proof.
  unfold Itoa. destruct (Z.ltb_spec n 0) as [Hneg|Hpos].
  - destruct (format_digits_head (Z.to_nat (Z.log2 (- n))) (- n)) as (d & r & Hd & Hr);
      [lia|].
    pose proof (parse_format_digits (digits_fuel (- n)) (- n)
                  (digits_fuel_enough (- n) ltac:(lia))) as Hp.
    unfold digits_fuel in *. cbn [atoi_fast]. change (Ascii.eqb "-" "-") with true.
    cbn [orb]. rewrite Hr in *. rewrite Hp. cbn. f_equal; lia.
  - destruct (format_digits_head (Z.to_nat (Z.log2 n)) n) as (d & r & Hd & Hr); [lia|].
    pose proof (parse_format_digits (digits_fuel n) n (digits_fuel_enough n Hpos)) as Hp.
    unfold digits_fuel in *. rewrite Hr in *. cbn [atoi_fast].
    destruct (digit_not_sign _ d (digit_val_char d Hd)) as [-> ->]. cbn [orb andb].
    by rewrite Hp.
Qed.

(** [Atoi] reads back what [Itoa] writes, for every value of Go's [int]. *)
Lemma Atoi_Itoa (n : Z) : - 2 ^ 63 <= n < 2 ^ 63 → Atoi (Itoa n) = (n, None).
Proof.
  intros Hn. unfold Atoi.
  destruct ((0 <? String.length (Itoa n)) && (String.length (Itoa n) <? 19))%nat.
  - apply atoi_fast_Itoa.
  - by apply ParseInt_Itoa.
Qed.

Lemma int32_small (x : Z) : - 2 ^ 31 <= x < 2 ^ 31 → int32 x = x.
Proof. intros Hx. unfold int32. rewrite Z.mod_small; lia. Qed.

End StrconvFacts.

Example Itoa_32 : Strconv.Itoa 32 = "32".
Proof. reflexivity. Qed.

Example Itoa_negative : Strconv.Itoa (-107) = "-107".
Proof. reflexivity. Qed.

Example Atoi_9081 : Strconv.Atoi "9081" = (9081, None).
Proof. reflexivity. Qed.

Example Atoi_syntax : Strconv.Atoi "90x1" = (0, Some Strconv.ErrSyntax).
Proof. reflexivity. Qed.

Example Atoi_range :
  Strconv.Atoi "9223372036854775808" = (9223372036854775807, Some Strconv.ErrRange).
Proof. reflexivity. Qed.

Example Atoi_range_first :
  Strconv.Atoi "99999999999999999999x" = (9223372036854775807, Some Strconv.ErrRange).
Proof. reflexivity. Qed.

Example Atoi_min : Strconv.Atoi "-9223372036854775808" = (-9223372036854775808, None).
Proof. reflexivity. Qed.

Example Atoi_sign_only : Strconv.Atoi "+" = (0, Some Strconv.ErrSyntax).
Proof. reflexivity. Qed.

Example Atoi_empty : Strconv.Atoi "" = (0, Some Strconv.ErrSyntax).
Proof. reflexivity. Qed.

Example int32_wraps : Strconv.int32 4294976377 = 9081.
Proof. reflexivity. Qed.

(** ** The map helpers *)

Section UtilsFacts.

Lemma Includes_elem_of (slice : list string) (value : string) :
  utils.Includes slice value = true ↔ value ∈ slice.
Proof.
  induction slice as [|v rest IH]; simpl.
  - split; [discriminate | intros []%not_elem_of_nil].
  - rewrite elem_of_cons. destruct (String.eqb_spec v value) as [->|Hne].
    + split; [by left | done].
    + rewrite IH. split; [by right | intros [->|]; done].
Qed.

Lemma Includes_not_elem_of (slice : list string) (value : string) :
  negb (utils.Includes slice value) = true ↔ value ∉ slice.
Proof.
  rewrite <- Includes_elem_of. destruct (utils.Includes slice value); simpl.
  - split; [discriminate | intros []; reflexivity].
  - split; [discriminate | reflexivity].
Qed.

Lemma Filter_lookup (origin : gmap string string) (predicate : string → bool)
    (key : string) :
  utils.Filter origin predicate !! key =
  if predicate key then origin !! key else None.
Proof.
  unfold utils.Filter. destruct (predicate key) eqn:Hp.
  - destruct (origin !! key) as [v|] eqn:Hk.
    + apply map_lookup_filter_Some. split; [done|]. simpl. by rewrite Hp.
    + apply map_lookup_filter_None. left. done.
  - apply map_lookup_filter_None. right. intros v _. simpl. rewrite Hp. intros [].
Qed.

End UtilsFacts.

(** ** Annotations and ports *)

Section AnnotationProps.
Import constants v1beta1 components.
Context `{Constants}.

Lemma addLoggerAnnotations_flag (logger : option LoggerSpec) (m : gmap string string) :
  (addLoggerAnnotations logger m).1 = true ↔ is_Some logger.
Proof.
  destruct logger; simpl; split; try done; by intros [? ?].
Qed.

Lemma addBatcherAnnotations_flag (batcher : option Batcher) (m : gmap string string) :
  (addBatcherAnnotations batcher m).1 = true ↔ is_Some batcher.
Proof.
  destruct batcher; simpl; split; try done; by intros [? ?].
Qed.

(** C4, as amended: for every annotation map [m], a logger with delivery
    mode "request" and no sink URL leaves logging-enabled = "true" and
    logging-mode = "request" in the map and does not touch the sink-URL
    key, which is therefore bound afterwards exactly when [m] bound it (in
    particular it is absent when [m] did not have it); and the function
    returns true exactly when the logger sub-specification is present. *)
Theorem addLoggerAnnotations_request (m : gmap string string) (logger : LoggerSpec) :
  NoDup InternalAnnotationKeys →
  URL logger = None →
  Mode logger = "request" →
  let m' := (addLoggerAnnotations (Some logger) m).2 in
  m' !! LoggerInternalAnnotationKey = Some "true" ∧
  m' !! LoggerModeInternalAnnotationKey = Some "request" ∧
  m' !! LoggerSinkUrlInternalAnnotationKey = m !! LoggerSinkUrlInternalAnnotationKey ∧
  (m !! LoggerSinkUrlInternalAnnotationKey = None →
   m' !! LoggerSinkUrlInternalAnnotationKey = None) ∧
  (∀ (l : option LoggerSpec) (m0 : gmap string string),
     (addLoggerAnnotations l m0).1 = true ↔ is_Some l).
Proof.
  intros Hkeys Hurl Hmode. distinct_keys Hkeys.
  cbn [addLoggerAnnotations snd]. rewrite Hurl, Hmode.
  assert (<[LoggerModeInternalAnnotationKey:="request"]>
            (<[LoggerInternalAnnotationKey:="true"]> m)
          !! LoggerSinkUrlInternalAnnotationKey
          = m !! LoggerSinkUrlInternalAnnotationKey) as Hsink.
  { rewrite !lookup_insert_ne by congruence. reflexivity. }
  split_and!.
  - rewrite lookup_insert_ne by congruence. apply lookup_insert_eq.
  - apply lookup_insert_eq.
  - exact Hsink.
  - intros Hnone. by rewrite Hsink.
  - apply addLoggerAnnotations_flag.
Qed.

(** C5: for every annotation map and present batcher, batching-enabled is
    set to "true"; each of max-batch-size, max-latency and timeout that is
    present is written as [strconv.Itoa] of the integer, which is its
    decimal string (32 gives "32", 100 gives "100", 60 gives "60", and
    [strconv.Atoi] reads every [int] back); when all three are absent the
    only change to the map is batching-enabled = "true"; and the function
    returns true exactly when the batcher is present. *)
Theorem addBatcherAnnotations_encoding (m : gmap string string) (batcher : Batcher) :
  NoDup InternalAnnotationKeys →
  let m' := (addBatcherAnnotations (Some batcher) m).2 in
  m' !! BatcherInternalAnnotationKey = Some "true" ∧
  (∀ n, MaxBatchSize batcher = Some n →
        m' !! BatcherMaxBatchSizeInternalAnnotationKey = Some (Strconv.Itoa n)) ∧
  (∀ n, MaxLatency batcher = Some n →
        m' !! BatcherMaxLatencyInternalAnnotationKey = Some (Strconv.Itoa n)) ∧
  (∀ n, Timeout batcher = Some n →
        m' !! BatcherTimeoutInternalAnnotationKey = Some (Strconv.Itoa n)) ∧
  (MaxBatchSize batcher = None → MaxLatency batcher = None → Timeout batcher = None →
   m' = <[BatcherInternalAnnotationKey := "true"]> m) ∧
  (Strconv.Itoa 32 = "32" ∧ Strconv.Itoa 100 = "100" ∧ Strconv.Itoa 60 = "60") ∧
  (∀ n, - 2 ^ 63 <= n < 2 ^ 63 → Strconv.Atoi (Strconv.Itoa n) = (n, None)) ∧
  (∀ (b : option Batcher) (m0 : gmap string string),
     (addBatcherAnnotations b m0).1 = true ↔ is_Some b).
Proof.
  intros Hkeys. distinct_keys Hkeys.
  cbn [addBatcherAnnotations snd]. split_and!.
  - destruct (MaxBatchSize batcher), (MaxLatency batcher), (Timeout batcher);
      rewrite ?lookup_insert_ne by congruence; apply lookup_insert_eq.
  - intros n ->. destruct (MaxLatency batcher), (Timeout batcher);
      rewrite ?lookup_insert_ne by congruence; apply lookup_insert_eq.
  - intros n ->. destruct (MaxBatchSize batcher), (Timeout batcher);
      rewrite ?lookup_insert_ne by congruence; apply lookup_insert_eq.
  - intros n ->. destruct (MaxBatchSize batcher), (MaxLatency batcher);
      apply lookup_insert_eq.
  - intros -> -> ->. reflexivity.
  - reflexivity.
  - reflexivity.
  - reflexivity.
  - apply Atoi_Itoa.
  - apply addBatcherAnnotations_flag.
Qed.

End AnnotationProps.

(** ** Ports *)

Section PortProps.
Import constants v1beta1 components.
Context `{Constants}.

Lemma addLoggerContainerPort_Some (c : v1.Container) :
  addLoggerContainerPort (Some c) =
  Some (if decide (v1.Ports c = [])
        then v1.set_Ports c [port_entry (Strconv.Atoi InferenceServiceDefaultLoggerPort).1]
        else c).
Proof.
  unfold addLoggerContainerPort.
  destruct (Strconv.Atoi InferenceServiceDefaultLoggerPort) as [port err].
  destruct (v1.Ports c) as [|x l]; reflexivity.
Qed.

Lemma addBatcherContainerPort_Some (c : v1.Container) :
  addBatcherContainerPort (Some c) =
  Some (if decide (v1.Ports c = [])
        then v1.set_Ports c [port_entry (Strconv.Atoi InferenceServiceDefaultBatcherPort).1]
        else c).
Proof.
  unfold addBatcherContainerPort.
  destruct (Strconv.Atoi InferenceServiceDefaultBatcherPort) as [port err].
  destruct (v1.Ports c) as [|x l]; reflexivity.
Qed.


End PortProps.

(** ** The synthesis phase, step by step *)

Section SynthesisSteps.
Import constants v1beta1 components.
Context `{Constants} `{Declarations} `{!Methods} `{!knative.Delegate}.

Lemma bind_run {A B} (m : M A) (f : A → M B) (isvc : InferenceService) :
  (m ≫= f) isvc =
  match m isvc with
  | (isvc', Ok a) => f a isvc'
  | (isvc', Panic pn) => (isvc', Panic pn)
  end.
Proof. reflexivity. Qed.

Lemma set_Containers_same (custom : CustomPredictor) :
  set_Containers custom (v1.Containers (v1.Spec (PodTemplateSpec custom))) = custom.
Proof. by destruct custom as [[meta []]]. Qed.

Lemma set_Custom_same (isvc : InferenceService) (custom : CustomPredictor) :
  Custom (v1beta1.Predictor (Spec isvc)) = Some custom →
  set_Custom isvc (Some custom) = isvc.
Proof. destruct isvc as [meta [[]] status]. cbn. by intros ->. Qed.

Lemma derefCustom_Some (isvc : InferenceService) (custom : CustomPredictor) :
  Custom (v1beta1.Predictor (Spec isvc)) = Some custom →
  derefCustom isvc = (isvc, Ok custom).
Proof. intros Hc. unfold derefCustom. rewrite bind_run. cbn [get]. by rewrite Hc. Qed.

Lemma setFirstContainer_cons (isvc : InferenceService) (custom : CustomPredictor)
    (c c0 : v1.Container) (rest : list v1.Container) :
  Custom (v1beta1.Predictor (Spec isvc)) = Some custom →
  v1.Containers (v1.Spec (PodTemplateSpec custom)) = c0 :: rest →
  setFirstContainer c isvc =
  (set_Custom isvc (Some (set_Containers custom (c :: rest))), Ok tt).
Proof.
  intros Hc Hl. unfold setFirstContainer.
  rewrite bind_run, (derefCustom_Some _ _ Hc), Hl.
  reflexivity.
Qed.

Lemma setFirstContainer_nil (isvc : InferenceService) (custom : CustomPredictor)
    (c : v1.Container) :
  Custom (v1beta1.Predictor (Spec isvc)) = Some custom →
  v1.Containers (v1.Spec (PodTemplateSpec custom)) = [] →
  setFirstContainer c isvc = (isvc, Panic (IndexOutOfRange 0 0)).
Proof.
  intros Hc Hl. unfold setFirstContainer.
  rewrite bind_run, (derefCustom_Some _ _ Hc), Hl.
  reflexivity.
Qed.

Lemma patchFirstContainer_cons (patch : option v1.Container → option v1.Container)
    (isvc : InferenceService) (custom : CustomPredictor)
    (c0 c' : v1.Container) (rest : list v1.Container) :
  Custom (v1beta1.Predictor (Spec isvc)) = Some custom →
  v1.Containers (v1.Spec (PodTemplateSpec custom)) = c0 :: rest →
  patch (Some c0) = Some c' →
  patchFirstContainer patch isvc =
  (set_Custom isvc (Some (set_Containers custom (c' :: rest))), Ok tt).
Proof.
  intros Hc Hl Hp. unfold patchFirstContainer.
  rewrite bind_run, (derefCustom_Some _ _ Hc), Hl. cbn [lookup list_lookup].
  rewrite Hp. by apply setFirstContainer_cons with c0.
Qed.

Lemma patchPorts_run (hl hb : bool) (isvc : InferenceService)
    (custom : CustomPredictor) (c : v1.Container) (rest : list v1.Container) :
  Custom (v1beta1.Predictor (Spec isvc)) = Some custom →
  v1.Containers (v1.Spec (PodTemplateSpec custom)) = c :: rest →
  patchPorts hl hb isvc =
  (set_Custom isvc (Some (set_Containers custom (portsPatched hl hb c :: rest))), Ok tt).
Proof.
  intros Hc Hl. unfold patchPorts, portsPatched. rewrite bind_run.
  assert (set_Custom isvc (Some (set_Containers custom (c :: rest))) = isvc) as Hid.
  { rewrite <- Hl, set_Containers_same. by apply set_Custom_same. }
  destruct hl.
  - rewrite (patchFirstContainer_cons _ _ _ _ _ _ Hc Hl (addLoggerContainerPort_Some c)).
    destruct hb.
    + erewrite patchFirstContainer_cons;
        [|reflexivity|reflexivity|apply addBatcherContainerPort_Some].
      rewrite ?addLoggerContainerPort_Some, ?addBatcherContainerPort_Some. reflexivity.
    + rewrite addLoggerContainerPort_Some. reflexivity.
  - cbn [mret M_ret]. destruct hb.
    + rewrite (patchFirstContainer_cons _ _ _ _ _ _ Hc Hl (addBatcherContainerPort_Some c)).
      rewrite addBatcherContainerPort_Some. reflexivity.
    + by rewrite Hid.
Qed.

Lemma newKsvcReconciler_run (objectMeta : metav1.ObjectMeta) (isvc : InferenceService)
    (custom : CustomPredictor) :
  Custom (v1beta1.Predictor (Spec isvc)) = Some custom →
  newKsvcReconciler objectMeta isvc =
  (isvc, Ok (knative.NewKsvcReconciler objectMeta
               (ComponentExtensionSpec' (v1beta1.Predictor (Spec isvc)))
               (v1.Spec (PodTemplateSpec custom))
               (default ComponentStatusSpec_zero
                  (Components (Status isvc) !! PredictorComponent)))).
Proof.
  intros Hc. unfold newKsvcReconciler. rewrite bind_run. cbn [get].
  rewrite bind_run, (derefCustom_Some _ _ Hc). reflexivity.
Qed.

(** No override: a new single-container template is built. *)
Lemma synthesize_fresh (p : Predictor) (isvc : InferenceService) :
  Custom (v1beta1.Predictor (Spec isvc)) = None →
  synthesize p isvc =
  (set_Custom isvc (Some (freshTemplate (desiredContainer p isvc))),
   Ok (knative.NewKsvcReconciler
         (synthesizeObjectMeta isvc (synthesizeAnnotations isvc).2)
         (ComponentExtensionSpec' (v1beta1.Predictor (Spec isvc)))
         (v1.Spec (PodTemplateSpec (freshTemplate (desiredContainer p isvc))))
         (default ComponentStatusSpec_zero
            (Components (Status isvc) !! PredictorComponent)))).
Proof.
  intros Hc. unfold synthesize, desiredContainer.
  rewrite bind_run. cbn [get].
  destruct (synthesizeAnnotations isvc) as [[hl hb] ann].
  rewrite bind_run. unfold installContainer at 1. rewrite bind_run. cbn [get].
  rewrite Hc. cbn [put].
  rewrite bind_run.
  erewrite patchPorts_run; [|reflexivity|reflexivity].
  erewrite newKsvcReconciler_run; [|reflexivity].
  reflexivity.
Qed.

(** An override with at least one container: its first container is
    replaced. *)
Lemma synthesize_override (p : Predictor) (isvc : InferenceService)
    (custom : CustomPredictor) (c0 : v1.Container) (rest : list v1.Container) :
  Custom (v1beta1.Predictor (Spec isvc)) = Some custom →
  v1.Containers (v1.Spec (PodTemplateSpec custom)) = c0 :: rest →
  synthesize p isvc =
  (set_Custom isvc (Some (set_Containers custom (desiredContainer p isvc :: rest))),
   Ok (knative.NewKsvcReconciler
         (synthesizeObjectMeta isvc (synthesizeAnnotations isvc).2)
         (ComponentExtensionSpec' (v1beta1.Predictor (Spec isvc)))
         (v1.Spec (PodTemplateSpec
            (set_Containers custom (desiredContainer p isvc :: rest))))
         (default ComponentStatusSpec_zero
            (Components (Status isvc) !! PredictorComponent)))).
Proof.
  intros Hc Hl. unfold synthesize, desiredContainer.
  rewrite bind_run. cbn [get].
  destruct (synthesizeAnnotations isvc) as [[hl hb] ann].
  rewrite bind_run. unfold installContainer at 1. rewrite bind_run. cbn [get].
  rewrite Hc. rewrite (setFirstContainer_cons _ _ _ _ _ Hc Hl).
  rewrite bind_run.
  erewrite patchPorts_run; [|reflexivity|reflexivity].
  erewrite newKsvcReconciler_run; [|reflexivity].
  reflexivity.
Qed.

(** An override without containers: the pass panics at the assignment to
    the first container, and the parent is as it was. *)
Lemma synthesize_empty (p : Predictor) (isvc : InferenceService)
    (custom : CustomPredictor) :
  Custom (v1beta1.Predictor (Spec isvc)) = Some custom →
  v1.Containers (v1.Spec (PodTemplateSpec custom)) = [] →
  synthesize p isvc = (isvc, Panic (IndexOutOfRange 0 0)).
Proof.
  intros Hc Hl. unfold synthesize.
  rewrite bind_run. cbn [get].
  destruct (synthesizeAnnotations isvc) as [[hl hb] ann].
  rewrite bind_run. unfold installContainer at 1. rewrite bind_run. cbn [get].
  rewrite Hc. rewrite (setFirstContainer_nil _ _ _ Hc Hl). reflexivity.
Qed.

End SynthesisSteps.

(** ** The reconcile pass *)

Section ReconcileProps.
Import constants v1beta1 components.
Context `{Constants} `{Declarations} `{!Methods} `{!knative.Delegate}.

(** Synthesis writes the override and nothing else of the parent. *)
Lemma synthesize_frame (p : Predictor) (isvc : InferenceService) :
  ∃ custom', (synthesize p isvc).1 = set_Custom isvc custom' ∧
             (is_Some (Custom (v1beta1.Predictor (Spec isvc))) → is_Some custom').
Proof.
  destruct (Custom (v1beta1.Predictor (Spec isvc))) as [custom|] eqn:Hc.
  - destruct (v1.Containers (v1.Spec (PodTemplateSpec custom))) as [|c0 rest] eqn:Hl.
    + rewrite (synthesize_empty _ _ _ Hc Hl). exists (Some custom).
      split; [symmetry; by apply set_Custom_same | by eexists].
    + rewrite (synthesize_override _ _ _ _ _ Hc Hl). eexists. split; [reflexivity|].
      by eexists.
  - rewrite (synthesize_fresh _ _ Hc). eexists. split; [reflexivity|].
    by intros [? ?].
Qed.

(** After the delegate, the parent differs from the synthesized one at
    most in its status. *)
Lemma Reconcile_spec_frame (p : Predictor) (isvc : InferenceService)
    (cluster : knative.Cluster) :
  ObjectMeta (Reconcile p isvc cluster).1.1 = ObjectMeta (synthesize p isvc).1 ∧
  Spec (Reconcile p isvc cluster).1.1 = Spec (synthesize p isvc).1.
Proof.
  unfold Reconcile. destruct (synthesize p isvc) as [isvc1 [r|pn]]; [|done].
  destruct (knative.SetControllerReference isvc1 r); [done|].
  destruct (knative.Reconcile r cluster) as [[err|status] cluster']; done.
Qed.

(** The port patches touch the port list only. *)
Lemma portsPatched_fields (hl hb : bool) (c : v1.Container) :
  v1.set_Ports (portsPatched hl hb c) (v1.Ports c) = c.
Proof.
  unfold portsPatched.
  rewrite !addLoggerContainerPort_Some, !addBatcherContainerPort_Some.
  destruct c. destruct hl, hb; cbn [default]; repeat case_decide; reflexivity.
Qed.

(** C6: a container with no ports gets exactly one port entry, whose
    number is the well-known port constant read by [strconv.Atoi] and
    narrowed to 32 bits (the number [n] itself when the constant is the
    decimal string of a port number [n]); a container that declares a port
    is left as it is; hence patching a second time changes nothing and the
    port count stays 1.  The same holds for the logger and the batcher
    patch. *)
Theorem port_patch_exclusive (c : v1.Container) :
  (v1.Ports c = [] →
     addLoggerContainerPort (Some c) =
       Some (v1.set_Ports c
               [port_entry (Strconv.Atoi InferenceServiceDefaultLoggerPort).1]) ∧
     addBatcherContainerPort (Some c) =
       Some (v1.set_Ports c
               [port_entry (Strconv.Atoi InferenceServiceDefaultBatcherPort).1])) ∧
  (v1.Ports c ≠ [] →
     addLoggerContainerPort (Some c) = Some c ∧
     addBatcherContainerPort (Some c) = Some c) ∧
  (∀ c', addLoggerContainerPort (Some c) = Some c' →
         addLoggerContainerPort (Some c') = Some c' ∧
         (v1.Ports c = [] → length (v1.Ports c') = 1%nat)) ∧
  (∀ c', addBatcherContainerPort (Some c) = Some c' →
         addBatcherContainerPort (Some c') = Some c' ∧
         (v1.Ports c = [] → length (v1.Ports c') = 1%nat)) ∧
  (∀ n, 0 <= n < 2 ^ 31 →
        InferenceServiceDefaultLoggerPort = Strconv.Itoa n →
        v1.containerPort
          (port_entry (Strconv.Atoi InferenceServiceDefaultLoggerPort).1) = n) ∧
  (∀ n, 0 <= n < 2 ^ 31 →
        InferenceServiceDefaultBatcherPort = Strconv.Itoa n →
        v1.containerPort
          (port_entry (Strconv.Atoi InferenceServiceDefaultBatcherPort).1) = n).
Proof.
  rewrite addLoggerContainerPort_Some, addBatcherContainerPort_Some.
  split_and!.
  - intros Hp. by rewrite !decide_True.
  - intros Hp. by rewrite !decide_False.
  - intros c' [= <-]. rewrite addLoggerContainerPort_Some.
    destruct (decide (v1.Ports c = [])) as [Hp|Hp].
    + split; done.
    + rewrite decide_False by done. split; [done | intros; contradiction].
  - intros c' [= <-]. rewrite addBatcherContainerPort_Some.
    destruct (decide (v1.Ports c = [])) as [Hp|Hp].
    + split; done.
    + rewrite decide_False by done. split; [done | intros; contradiction].
  - intros n Hn ->. rewrite Atoi_Itoa by lia. cbn. apply int32_small. lia.
  - intros n Hn ->. rewrite Atoi_Itoa by lia. cbn. apply int32_small. lia.
Qed.

(** C7: when the parent carries an override with at least one container,
    a pass replaces the first container by the freshly built one (with the
    port patches of the pass applied to it, which touch its port list
    only); every further container, the volumes and all other fields of
    the override are as they were. *)
Theorem Reconcile_preserves_override (p : Predictor) (isvc : InferenceService)
    (cluster : knative.Cluster) (custom : CustomPredictor)
    (c0 : v1.Container) (rest : list v1.Container) :
  Custom (v1beta1.Predictor (Spec isvc)) = Some custom →
  v1.Containers (v1.Spec (PodTemplateSpec custom)) = c0 :: rest →
  ∃ custom',
    Custom (v1beta1.Predictor (Spec (synthesize p isvc).1)) = Some custom' ∧
    Custom (v1beta1.Predictor (Spec (Reconcile p isvc cluster).1.1)) = Some custom' ∧
    v1.Containers (v1.Spec (PodTemplateSpec custom')) = desiredContainer p isvc :: rest ∧
    v1.set_Ports (desiredContainer p isvc)
      (v1.Ports (GetContainer (GetImplementation (v1beta1.Predictor (Spec isvc)))
                   (ObjectMeta isvc) (GetExtensions (v1beta1.Predictor (Spec isvc)))
                   (inferenceServiceConfig p)))
    = GetContainer (GetImplementation (v1beta1.Predictor (Spec isvc)))
        (ObjectMeta isvc) (GetExtensions (v1beta1.Predictor (Spec isvc)))
        (inferenceServiceConfig p) ∧
    (∀ i : nat, v1.Containers (v1.Spec (PodTemplateSpec custom')) !! S i =
                v1.Containers (v1.Spec (PodTemplateSpec custom)) !! S i) ∧
    v1.Volumes (v1.Spec (PodTemplateSpec custom')) =
      v1.Volumes (v1.Spec (PodTemplateSpec custom)) ∧
    v1.InitContainers (v1.Spec (PodTemplateSpec custom')) =
      v1.InitContainers (v1.Spec (PodTemplateSpec custom)) ∧
    v1.ServiceAccountName (v1.Spec (PodTemplateSpec custom')) =
      v1.ServiceAccountName (v1.Spec (PodTemplateSpec custom)) ∧
    v1.NodeSelector (v1.Spec (PodTemplateSpec custom')) =
      v1.NodeSelector (v1.Spec (PodTemplateSpec custom)) ∧
    v1.ObjectMeta (PodTemplateSpec custom') = v1.ObjectMeta (PodTemplateSpec custom).
Proof.
  intros Hc Hl. exists (set_Containers custom (desiredContainer p isvc :: rest)).
  destruct (Reconcile_spec_frame p isvc cluster) as [_ ->].
  rewrite (synthesize_override _ _ _ _ _ Hc Hl). split_and!; try reflexivity.
  - unfold desiredContainer. destruct (synthesizeAnnotations isvc) as [[hl hb] ann].
    apply portsPatched_fields.
  - intros i. by rewrite Hl.
Qed.

(** C8: after the synthesis phase, and so after the whole pass however it
    ends, the custom variant of the parent's predictor is populated: when
    it was absent it now holds a pod template with a single container, and
    when it was present it is still present. *)
Theorem Reconcile_populates_custom (p : Predictor) (isvc : InferenceService)
    (cluster : knative.Cluster) :
  is_Some (Custom (v1beta1.Predictor (Spec (Reconcile p isvc cluster).1.1))) ∧
  Custom (v1beta1.Predictor (Spec (Reconcile p isvc cluster).1.1)) =
    Custom (v1beta1.Predictor (Spec (synthesize p isvc).1)) ∧
  (Custom (v1beta1.Predictor (Spec isvc)) = None →
     ∃ custom', Custom (v1beta1.Predictor (Spec (synthesize p isvc).1)) = Some custom' ∧
                custom' = freshTemplate (desiredContainer p isvc) ∧
                length (v1.Containers (v1.Spec (PodTemplateSpec custom'))) = 1%nat) ∧
  (is_Some (Custom (v1beta1.Predictor (Spec isvc))) →
     is_Some (Custom (v1beta1.Predictor (Spec (synthesize p isvc).1)))).
Proof.
  destruct (Reconcile_spec_frame p isvc cluster) as [_ ->].
  destruct (Custom (v1beta1.Predictor (Spec isvc))) as [custom|] eqn:Hc.
  - destruct (synthesize_frame p isvc) as (custom' & -> & Hsome).
    rewrite Hc in Hsome. cbn. split_and!; try done; auto.
  - rewrite (synthesize_fresh _ _ Hc). cbn. split_and!; try done.
    intros _. eexists. split_and!; reflexivity.
Qed.

(** C10: an override whose container list is empty makes the pass panic
    with an index out of range at the assignment to the first container;
    no new template is built, and the parent and the cluster are as they
    were. *)
Theorem Reconcile_empty_override_panics (p : Predictor) (isvc : InferenceService)
    (cluster : knative.Cluster) (custom : CustomPredictor) :
  Custom (v1beta1.Predictor (Spec isvc)) = Some custom →
  v1.Containers (v1.Spec (PodTemplateSpec custom)) = [] →
  Reconcile p isvc cluster = (isvc, cluster, Panicked (IndexOutOfRange 0 0)).
Proof.
  intros Hc Hl. unfold Reconcile. by rewrite (synthesize_empty _ _ _ Hc Hl).
Qed.

(** The converse: with an override that has a container, or with none,
    synthesis does not panic. *)
Lemma synthesize_ok (p : Predictor) (isvc : InferenceService) :
  (∀ custom, Custom (v1beta1.Predictor (Spec isvc)) = Some custom →
             v1.Containers (v1.Spec (PodTemplateSpec custom)) ≠ []) →
  ∃ r, (synthesize p isvc).2 = Ok r.
Proof.
  intros Hne. destruct (Custom (v1beta1.Predictor (Spec isvc))) as [custom|] eqn:Hc.
  - destruct (v1.Containers (v1.Spec (PodTemplateSpec custom))) as [|c0 rest] eqn:Hl.
    + by destruct (Hne custom).
    + rewrite (synthesize_override _ _ _ _ _ Hc Hl). by eexists.
  - rewrite (synthesize_fresh _ _ Hc). by eexists.
Qed.

(** The status of the parent changes only when the delegate succeeds. *)
Lemma synthesize_status (p : Predictor) (isvc : InferenceService) :
  Status (synthesize p isvc).1 = Status isvc ∧
  ObjectMeta (synthesize p isvc).1 = ObjectMeta isvc.
Proof. destruct (synthesize_frame p isvc) as (custom' & -> & _). done. Qed.

(** C2: when the owner reference cannot be established, or the delegate's
    reconcile fails, the pass returns that very error and the status of
    the parent is what it was before the pass (in the first case the
    delegate is not even called); whenever the pass does not return [nil]
    the status is unchanged; and when the delegate succeeds the pass
    returns [nil] and the status entry of the predictor component is the
    status snapshot the delegate returned, every other entry being as
    before. *)
Theorem Reconcile_status_isolation (p : Predictor) (isvc : InferenceService)
    (cluster : knative.Cluster) :
  ((Reconcile p isvc cluster).2 ≠ Returned None →
     Status (Reconcile p isvc cluster).1.1 = Status isvc) ∧
  (∀ isvc1 r, synthesize p isvc = (isvc1, Ok r) →
     (∀ err, knative.SetControllerReference isvc1 r = Some err →
        Reconcile p isvc cluster = (isvc1, cluster, Returned (Some err)) ∧
        Components (Status isvc1) !! PredictorComponent =
          Components (Status isvc) !! PredictorComponent) ∧
     (∀ err cluster',
        knative.SetControllerReference isvc1 r = None →
        knative.Reconcile r cluster = (inl err, cluster') →
        Reconcile p isvc cluster = (isvc1, cluster', Returned (Some err)) ∧
        Components (Status isvc1) !! PredictorComponent =
          Components (Status isvc) !! PredictorComponent) ∧
     (∀ status cluster',
        knative.SetControllerReference isvc1 r = None →
        knative.Reconcile r cluster = (inr status, cluster') →
        Reconcile p isvc cluster =
          (PropagateStatus isvc1 PredictorComponent status, cluster', Returned None) ∧
        Components (Status (Reconcile p isvc cluster).1.1) =
          <[PredictorComponent := status]> (Components (Status isvc)) ∧
        Components (Status (Reconcile p isvc cluster).1.1) !! PredictorComponent =
          Some status)).
Proof.
  pose proof (synthesize_status p isvc) as [Hst _].
  unfold Reconcile. destruct (synthesize p isvc) as [isvc1 [r|pn]]; cbn in Hst.
  - split.
    + destruct (knative.SetControllerReference isvc1 r); [done|].
      destruct (knative.Reconcile r cluster) as [[err|status] cluster']; done.
    + intros ? ? [= <- <-]. split_and!.
      * intros err ->. by rewrite Hst.
      * intros err cluster' -> ->. by rewrite Hst.
      * intros status cluster' -> ->. cbn. rewrite Hst.
        split_and!; [done | done | apply lookup_insert_eq].
  - split; [done|]. intros ? ? [=].
Qed.

(** *** The annotation map *)


Lemma addLoggerAnnotations_other (logger : option LoggerSpec)
    (m : gmap string string) (K : string) :
  K ∉ (match logger with
       | Some logger =>
           ([LoggerInternalAnnotationKey; LoggerModeInternalAnnotationKey] ++
            (if URL logger is Some _ then [LoggerSinkUrlInternalAnnotationKey] else []))%list
       | None => []
       end : list string) →
  (addLoggerAnnotations logger m).2 !! K = m !! K.
Proof.
  destruct logger as [[url mode]|]; [|done]. cbn.
  destruct url; cbn; intros Hk; rewrite !lookup_insert_ne; set_solver.
Qed.

Lemma addBatcherAnnotations_other (batcher : option Batcher)
    (m : gmap string string) (K : string) :
  K ∉ (match batcher with
      | Some batcher =>
          ([BatcherInternalAnnotationKey] ++
           (if MaxBatchSize batcher is Some _
            then [BatcherMaxBatchSizeInternalAnnotationKey] else []) ++
           (if MaxLatency batcher is Some _
            then [BatcherMaxLatencyInternalAnnotationKey] else []) ++
           (if Timeout batcher is Some _
            then [BatcherTimeoutInternalAnnotationKey] else []))%list
      | None => []
      end : list string) →
  (addBatcherAnnotations batcher m).2 !! K = m !! K.
Proof.
  destruct batcher as [[size latency timeout]|]; [|done]. cbn.
  destruct size, latency, timeout; cbn; intros Hk; rewrite !lookup_insert_ne; set_solver.
Qed.

Lemma synthesizeAnnotations_eq (isvc : InferenceService) :
  (synthesizeAnnotations isvc).2 =
  (addBatcherAnnotations (Batcher' (v1beta1.Predictor (Spec isvc)))
     (addLoggerAnnotations (Logger (v1beta1.Predictor (Spec isvc)))
        (let annotations :=
           utils.Filter (metav1.Annotations (ObjectMeta isvc))
             (λ key, negb (utils.Includes ServiceAnnotationDisallowedList key)) in
         match GetStorageUri (GetImplementation (v1beta1.Predictor (Spec isvc))) with
         | Some sourceURI =>
             <[StorageInitializerSourceUriInternalAnnotationKey := sourceURI]> annotations
         | None => annotations
         end)).2).2.
Proof.
  unfold synthesizeAnnotations.
  destruct (addLoggerAnnotations _ _) as [hl m1]. cbn.
  destruct (addBatcherAnnotations _ _) as [hb m2]. reflexivity.
Qed.

(** A key that the pass does not write is looked up in the filtered copy
    of the parent's annotations. *)
Lemma synthesizeAnnotations_other (isvc : InferenceService) (K : string) :
  K ∉ writtenKeys isvc →
  (synthesizeAnnotations isvc).2 !! K =
  utils.Filter (metav1.Annotations (ObjectMeta isvc))
    (λ key, negb (utils.Includes ServiceAnnotationDisallowedList key)) !! K.
Proof.
  unfold writtenKeys. rewrite !not_elem_of_app. intros (Hs & Hl & Hb).
  rewrite synthesizeAnnotations_eq.
  rewrite addBatcherAnnotations_other, addLoggerAnnotations_other by done.
  cbn zeta. destruct (GetStorageUri _); [|done].
  rewrite lookup_insert_ne; [done|]. set_solver.
Qed.

(** What the logger step binds, the key constants being distinct. *)
Lemma addLoggerAnnotations_lookups (logger : LoggerSpec) (m : gmap string string) :
  NoDup InternalAnnotationKeys →
  let m' := (addLoggerAnnotations (Some logger) m).2 in
  m' !! LoggerInternalAnnotationKey = Some "true" ∧
  m' !! LoggerModeInternalAnnotationKey = Some (Mode logger) ∧
  (∀ url, URL logger = Some url → m' !! LoggerSinkUrlInternalAnnotationKey = Some url).
Proof.
  intros Hkeys. distinct_keys Hkeys. cbn [addLoggerAnnotations snd]. split_and!.
  - destruct (URL logger); rewrite !lookup_insert_ne by congruence; apply lookup_insert_eq.
  - apply lookup_insert_eq.
  - intros url ->. rewrite lookup_insert_ne by congruence. apply lookup_insert_eq.
Qed.

(** What the batcher step binds, the key constants being distinct. *)
Lemma addBatcherAnnotations_lookups (batcher : Batcher) (m : gmap string string) :
  NoDup InternalAnnotationKeys →
  let m' := (addBatcherAnnotations (Some batcher) m).2 in
  m' !! BatcherInternalAnnotationKey = Some "true" ∧
  (∀ n, MaxBatchSize batcher = Some n →
        m' !! BatcherMaxBatchSizeInternalAnnotationKey = Some (Strconv.Itoa n)) ∧
  (∀ n, MaxLatency batcher = Some n →
        m' !! BatcherMaxLatencyInternalAnnotationKey = Some (Strconv.Itoa n)) ∧
  (∀ n, Timeout batcher = Some n →
        m' !! BatcherTimeoutInternalAnnotationKey = Some (Strconv.Itoa n)).
Proof.
  intros Hkeys. distinct_keys Hkeys. cbn [addBatcherAnnotations snd]. split_and!.
  - destruct (MaxBatchSize batcher), (MaxLatency batcher), (Timeout batcher);
      rewrite ?lookup_insert_ne by congruence; apply lookup_insert_eq.
  - intros n ->. destruct (MaxLatency batcher), (Timeout batcher);
      rewrite ?lookup_insert_ne by congruence; apply lookup_insert_eq.
  - intros n ->. destruct (MaxBatchSize batcher), (Timeout batcher);
      rewrite ?lookup_insert_ne by congruence; apply lookup_insert_eq.
  - intros n ->. destruct (MaxBatchSize batcher), (MaxLatency batcher);
      apply lookup_insert_eq.
Qed.

(** C3, as amended: a key of the disallow-list that the pass does not
    write itself is absent from the synthesized annotation map, whether or
    not the parent carries it; a key outside the disallow-list that the
    pass does not write is bound exactly as in the parent's annotations;
    and the copy filtered by the disallow-list, from which the pass
    starts, binds no disallowed key at all.  The keys the pass writes are
    the storage-source key when the implementation has a storage URI, the
    logger keys when a logger is present and the batcher keys when a
    batcher is present; the key constants being pairwise distinct, each of
    them is bound in the synthesized map to the value the pass writes (the
    URI; "true", the mode and the sink URL; "true" and the decimal strings
    of the batcher's integers), whether or not the key is on the
    disallow-list and whatever the parent binds it to. *)
Theorem synthesizeAnnotations_filtered (isvc : InferenceService) (K : string) :
  (K ∈ ServiceAnnotationDisallowedList →
     utils.Filter (metav1.Annotations (ObjectMeta isvc))
       (λ key, negb (utils.Includes ServiceAnnotationDisallowedList key)) !! K = None) ∧
  (K ∉ writtenKeys isvc → K ∈ ServiceAnnotationDisallowedList →
     (synthesizeAnnotations isvc).2 !! K = None) ∧
  (K ∉ writtenKeys isvc → K ∉ ServiceAnnotationDisallowedList →
     (synthesizeAnnotations isvc).2 !! K = metav1.Annotations (ObjectMeta isvc) !! K) ∧
  (NoDup InternalAnnotationKeys →
     (∀ uri, GetStorageUri (GetImplementation (v1beta1.Predictor (Spec isvc))) = Some uri →
        (synthesizeAnnotations isvc).2 !! StorageInitializerSourceUriInternalAnnotationKey
          = Some uri) ∧
     (∀ logger, Logger (v1beta1.Predictor (Spec isvc)) = Some logger →
        (synthesizeAnnotations isvc).2 !! LoggerInternalAnnotationKey = Some "true" ∧
        (synthesizeAnnotations isvc).2 !! LoggerModeInternalAnnotationKey
          = Some (Mode logger) ∧
        (∀ url, URL logger = Some url →
           (synthesizeAnnotations isvc).2 !! LoggerSinkUrlInternalAnnotationKey
             = Some url)) ∧
     (∀ batcher, Batcher' (v1beta1.Predictor (Spec isvc)) = Some batcher →
        (synthesizeAnnotations isvc).2 !! BatcherInternalAnnotationKey = Some "true" ∧
        (∀ n, MaxBatchSize batcher = Some n →
           (synthesizeAnnotations isvc).2 !! BatcherMaxBatchSizeInternalAnnotationKey
             = Some (Strconv.Itoa n)) ∧
        (∀ n, MaxLatency batcher = Some n →
           (synthesizeAnnotations isvc).2 !! BatcherMaxLatencyInternalAnnotationKey
             = Some (Strconv.Itoa n)) ∧
        (∀ n, Timeout batcher = Some n →
           (synthesizeAnnotations isvc).2 !! BatcherTimeoutInternalAnnotationKey
             = Some (Strconv.Itoa n))) ∧
     (∀ K', K' ∈ writtenKeys isvc → is_Some ((synthesizeAnnotations isvc).2 !! K'))).
Proof.
  split_and!.
  - intros Hd. rewrite Filter_lookup.
    apply Includes_elem_of in Hd. by rewrite Hd.
  - intros Hw Hd. rewrite synthesizeAnnotations_other, Filter_lookup by done.
    apply Includes_elem_of in Hd. by rewrite Hd.
  - intros Hw Hd. rewrite synthesizeAnnotations_other, Filter_lookup by done.
    apply Includes_not_elem_of in Hd. by rewrite Hd.
  - intros Hkeys.
    assert (∀ K0 : string,
              K0 ∉ (match Batcher' (v1beta1.Predictor (Spec isvc)) with
                    | Some batcher =>
                        ([BatcherInternalAnnotationKey] ++
                         (if MaxBatchSize batcher is Some _
                          then [BatcherMaxBatchSizeInternalAnnotationKey] else []) ++
                         (if MaxLatency batcher is Some _
                          then [BatcherMaxLatencyInternalAnnotationKey] else []) ++
                         (if Timeout batcher is Some _
                          then [BatcherTimeoutInternalAnnotationKey] else []))%list
                    | None => []
                    end : list string) →
              (synthesizeAnnotations isvc).2 !! K0 =
              (addLoggerAnnotations (Logger (v1beta1.Predictor (Spec isvc)))
                 (let annotations :=
                    utils.Filter (metav1.Annotations (ObjectMeta isvc))
                      (λ key, negb (utils.Includes ServiceAnnotationDisallowedList key)) in
                  match GetStorageUri (GetImplementation (v1beta1.Predictor (Spec isvc)))
                  with
                  | Some sourceURI =>
                      <[StorageInitializerSourceUriInternalAnnotationKey := sourceURI]>
                        annotations
                  | None => annotations
                  end)).2 !! K0) as Hpast.
    { intros K0 HK0. rewrite synthesizeAnnotations_eq.
      by apply addBatcherAnnotations_other. }
    assert (∀ K0, K0 ∈ [StorageInitializerSourceUriInternalAnnotationKey;
                        LoggerInternalAnnotationKey;
                        LoggerSinkUrlInternalAnnotationKey;
                        LoggerModeInternalAnnotationKey] →
              K0 ∉ (match Batcher' (v1beta1.Predictor (Spec isvc)) with
                    | Some batcher =>
                        ([BatcherInternalAnnotationKey] ++
                         (if MaxBatchSize batcher is Some _
                          then [BatcherMaxBatchSizeInternalAnnotationKey] else []) ++
                         (if MaxLatency batcher is Some _
                          then [BatcherMaxLatencyInternalAnnotationKey] else []) ++
                         (if Timeout batcher is Some _
                          then [BatcherTimeoutInternalAnnotationKey] else []))%list
                    | None => []
                    end : list string)) as Hnb.
    { distinct_keys Hkeys. intros K0 HK0.
      destruct (Batcher' _) as [[[size|] [latency|] [timeout|]]|]; cbn;
        rewrite ?not_elem_of_cons; repeat split; try apply not_elem_of_nil;
        intros ->; rewrite !elem_of_cons in HK0;
        destruct HK0 as [?|[?|[?|[?|[]%elem_of_nil]]]]; congruence. }
    assert (∀ uri, GetStorageUri (GetImplementation (v1beta1.Predictor (Spec isvc)))
                     = Some uri →
              (synthesizeAnnotations isvc).2
                !! StorageInitializerSourceUriInternalAnnotationKey = Some uri) as Hstorage.
    { intros uri Huri. rewrite Hpast by (apply Hnb; set_solver-).
      rewrite Huri. cbn zeta. rewrite addLoggerAnnotations_other; [apply lookup_insert_eq|].
      distinct_keys Hkeys.
      destruct (Logger _) as [[[url|] mode]|]; cbn;
        rewrite ?not_elem_of_cons; repeat split; (done || apply not_elem_of_nil). }
    assert (∀ logger, Logger (v1beta1.Predictor (Spec isvc)) = Some logger →
              (synthesizeAnnotations isvc).2 !! LoggerInternalAnnotationKey = Some "true" ∧
              (synthesizeAnnotations isvc).2 !! LoggerModeInternalAnnotationKey
                = Some (Mode logger) ∧
              (∀ url, URL logger = Some url →
                 (synthesizeAnnotations isvc).2 !! LoggerSinkUrlInternalAnnotationKey
                   = Some url)) as Hlogger.
    { intros logger Hl. rewrite !Hpast by (apply Hnb; set_solver-). rewrite Hl.
      by apply addLoggerAnnotations_lookups. }
    assert (∀ batcher, Batcher' (v1beta1.Predictor (Spec isvc)) = Some batcher →
              (synthesizeAnnotations isvc).2 !! BatcherInternalAnnotationKey = Some "true" ∧
              (∀ n, MaxBatchSize batcher = Some n →
                 (synthesizeAnnotations isvc).2 !! BatcherMaxBatchSizeInternalAnnotationKey
                   = Some (Strconv.Itoa n)) ∧
              (∀ n, MaxLatency batcher = Some n →
                 (synthesizeAnnotations isvc).2 !! BatcherMaxLatencyInternalAnnotationKey
                   = Some (Strconv.Itoa n)) ∧
              (∀ n, Timeout batcher = Some n →
                 (synthesizeAnnotations isvc).2 !! BatcherTimeoutInternalAnnotationKey
                   = Some (Strconv.Itoa n))) as Hbatcher.
    { intros batcher Hb. rewrite synthesizeAnnotations_eq, Hb.
      by apply addBatcherAnnotations_lookups. }
    split_and!; [exact Hstorage | exact Hlogger | exact Hbatcher |].
    intros K' HK'. unfold writtenKeys in HK'. rewrite !elem_of_app in HK'.
    destruct HK' as [HK'|[HK'|HK']].
    + destruct (GetStorageUri _) as [uri|] eqn:Huri; [|by apply elem_of_nil in HK'].
      apply list_elem_of_singleton in HK' as ->. rewrite (Hstorage uri eq_refl). by eexists.
    + destruct (Logger _) as [logger|] eqn:Hl; [|by apply elem_of_nil in HK'].
      destruct (Hlogger logger eq_refl) as (H1' & H2' & H3').
      rewrite !elem_of_app, !elem_of_cons in HK'.
      destruct HK' as [[->|[->|[]%elem_of_nil]]|HK'];
        [rewrite H1'; by eexists | rewrite H2'; by eexists |].
      destruct (URL logger) as [url|]; [|by apply elem_of_nil in HK'].
      apply list_elem_of_singleton in HK' as ->. rewrite (H3' url eq_refl). by eexists.
    + destruct (Batcher' _) as [batcher|] eqn:Hb; [|by apply elem_of_nil in HK'].
      destruct (Hbatcher batcher eq_refl) as (H1' & H2' & H3' & H4').
      rewrite !elem_of_app in HK'. destruct HK' as [HK'|[HK'|[HK'|HK']]].
      * apply list_elem_of_singleton in HK' as ->. rewrite H1'. by eexists.
      * destruct (MaxBatchSize batcher) as [n|]; [|by apply elem_of_nil in HK'].
        apply list_elem_of_singleton in HK' as ->. rewrite (H2' n eq_refl). by eexists.
      * destruct (MaxLatency batcher) as [n|]; [|by apply elem_of_nil in HK'].
        apply list_elem_of_singleton in HK' as ->. rewrite (H3' n eq_refl). by eexists.
      * destruct (Timeout batcher) as [n|]; [|by apply elem_of_nil in HK'].
        apply list_elem_of_singleton in HK' as ->. rewrite (H4' n eq_refl). by eexists.
Qed.

(** Whatever the constants are (the two logger keys being different), the
    logging-enabled key of the synthesized map is "true" when a logger is
    present, also when the parent binds the key to something else: so the
    key is either disallowed and present, or allowed and not retained with
    its value. *)
Lemma synthesizeAnnotations_overwrites (isvc : InferenceService) (logger : LoggerSpec) :
  LoggerInternalAnnotationKey ≠ LoggerModeInternalAnnotationKey →
  LoggerInternalAnnotationKey ≠ LoggerSinkUrlInternalAnnotationKey →
  Logger (v1beta1.Predictor (Spec isvc)) = Some logger →
  Batcher' (v1beta1.Predictor (Spec isvc)) = None →
  (synthesizeAnnotations isvc).2 !! LoggerInternalAnnotationKey = Some "true".
Proof.
  intros Hne1 Hne2 Hl Hb. rewrite synthesizeAnnotations_eq, Hl, Hb. cbn.
  rewrite lookup_insert_ne by done.
  destruct (URL logger); [rewrite lookup_insert_ne by done|]; apply lookup_insert_eq.
Qed.

(** *** Two passes in a row *)

(** What a pass that does not panic leaves behind and hands to the
    delegate. *)
Lemma synthesize_result (p : Predictor) (isvc : InferenceService)
    (r : knative.KsvcReconciler) :
  (synthesize p isvc).2 = Ok r →
  ∃ custom1 rest,
    (synthesize p isvc).1 = set_Custom isvc (Some custom1) ∧
    v1.Containers (v1.Spec (PodTemplateSpec custom1)) = desiredContainer p isvc :: rest ∧
    r = knative.NewKsvcReconciler
          (synthesizeObjectMeta isvc (synthesizeAnnotations isvc).2)
          (ComponentExtensionSpec' (v1beta1.Predictor (Spec isvc)))
          (v1.Spec (PodTemplateSpec custom1))
          (default ComponentStatusSpec_zero
             (Components (Status isvc) !! PredictorComponent)).
Proof.
  destruct (Custom (v1beta1.Predictor (Spec isvc))) as [custom|] eqn:Hc.
  - destruct (v1.Containers (v1.Spec (PodTemplateSpec custom))) as [|c0 rest] eqn:Hl.
    + by rewrite (synthesize_empty _ _ _ Hc Hl).
    + rewrite (synthesize_override _ _ _ _ _ Hc Hl). intros [= <-].
      by eexists _, rest.
  - rewrite (synthesize_fresh _ _ Hc). intros [= <-]. by eexists _, [].
Qed.


End ReconcileProps.

(** ** The config-map reconciler *)

Section ConfigMapProps.
Import multimodelconfig.
Context {Cluster : Type}.

(** C9: whatever the model declaration, with or without a deletion
    marker, the pass makes the create call for the desired config map and
    nothing else: the cluster afterwards and the returned error are those
    of the create call, so the pass returns a non-nil error exactly when
    the create call fails, and it is that very error. *)
Theorem ConfigMapReconciler_creates (c : ConfigMapReconciler Cluster)
    (desired : corev1.ConfigMap) (trainedModel : v1beta1api.TrainedModel)
    (cluster : Cluster) :
  Reconcile c desired trainedModel cluster = Create (client c) desired cluster ∧
  (is_Some (Reconcile c desired trainedModel cluster).1 ↔
   is_Some (Create (client c) desired cluster).1) ∧
  (∀ err, (Create (client c) desired cluster).1 = Some err →
          (Reconcile c desired trainedModel cluster).1 = Some err) ∧
  (∀ trainedModel',
     Reconcile c desired trainedModel' cluster = Reconcile c desired trainedModel cluster).
Proof.
  assert (∀ tm, Reconcile c desired tm cluster = Create (client c) desired cluster) as Heq.
  { intros tm. unfold Reconcile.
    destruct (metav1.DeletionTimestamp (v1beta1api.ObjectMeta tm));
      destruct (Create (client c) desired cluster) as [[err|] cluster']; reflexivity. }
  split_and!.
  - apply Heq.
  - by rewrite Heq.
  - intros err Herr. by rewrite Heq.
  - intros tm'. by rewrite !Heq.
Qed.

End ConfigMapProps.

(** ** The properties on the concrete instance *)


Section Instances.
Import constants v1beta1 components fixture.

Lemma fixture_keys_distinct : NoDup (@InternalAnnotationKeys consts).
Proof. by_computation. Qed.

(** Both annotation keys below are outside the disallow-list. *)
Lemma fixture_logger_key_allowed :
  (@LoggerInternalAnnotationKey consts ∉ @ServiceAnnotationDisallowedList consts) ∧
  (@LoggerSinkUrlInternalAnnotationKey consts ∉ @ServiceAnnotationDisallowedList consts).
Proof. split; by_computation. Qed.

(** C4, the claim as stated fails: a map that already binds the sink-URL
    key still binds it after a logger with mode "request" and no URL has
    been handled. *)
Lemma addLoggerAnnotations_stale_sink_url :
  let m : gmap string string :=
    {[ "internal.serving.kubeflow.org/logger-sink-url" := "http://old-sink" ]} in
  let m' := (@addLoggerAnnotations consts
               (Some {| URL := None; Mode := "request" |}) m).2 in
  m' !! @LoggerInternalAnnotationKey consts = Some "true" ∧
  m' !! @LoggerModeInternalAnnotationKey consts = Some "request" ∧
  m' !! @LoggerSinkUrlInternalAnnotationKey consts = Some "http://old-sink" ∧
  ¬ (m' !! @LoggerSinkUrlInternalAnnotationKey consts = None).
Proof. vm_compute. split_and!; [reflexivity..|discriminate]. Qed.

Lemma addLoggerAnnotations_request_witness :
  let m : gmap string string := {[ "owner" := "ml-team" ]} in
  let m' := (@addLoggerAnnotations consts
               (Some {| URL := None; Mode := "request" |}) m).2 in
  m' !! "internal.serving.kubeflow.org/logger" = Some "true" ∧
  m' !! "internal.serving.kubeflow.org/logger-mode" = Some "request" ∧
  m' !! "internal.serving.kubeflow.org/logger-sink-url" = None.
Proof.
  intros m m'.
  pose proof (@addLoggerAnnotations_request consts m
                {| URL := None; Mode := "request" |}
                fixture_keys_distinct eq_refl eq_refl) as (H1 & H2 & _ & H4 & _).
  split_and!; [exact H1 | exact H2 | apply H4; reflexivity].
Defined.

Lemma addBatcherAnnotations_encoding_witness :
  let m' := (@addBatcherAnnotations consts
               (Some {| MaxBatchSize := Some 32; MaxLatency := Some 100;
                        Timeout := Some 60 |}) ∅).2 in
  m' !! "internal.serving.kubeflow.org/batcher" = Some "true" ∧
  m' !! "internal.serving.kubeflow.org/batcher-max-batchsize" = Some "32" ∧
  m' !! "internal.serving.kubeflow.org/batcher-max-latency" = Some "100" ∧
  m' !! "internal.serving.kubeflow.org/batcher-timeout" = Some "60" ∧
  (@addBatcherAnnotations consts
     (Some {| MaxBatchSize := None; MaxLatency := None; Timeout := None |}) ∅).2 =
    {[ "internal.serving.kubeflow.org/batcher" := "true" ]}.
Proof.
  intros m'.
  pose proof (@addBatcherAnnotations_encoding consts ∅
                {| MaxBatchSize := Some 32; MaxLatency := Some 100; Timeout := Some 60 |}
                fixture_keys_distinct) as (H1 & H2 & H3 & H4 & _).
  pose proof (@addBatcherAnnotations_encoding consts ∅
                {| MaxBatchSize := None; MaxLatency := None; Timeout := None |}
                fixture_keys_distinct) as (_ & _ & _ & _ & H5 & _).
  split_and!;
    [exact H1 | exact (H2 32 eq_refl) | exact (H3 100 eq_refl) | exact (H4 60 eq_refl)
    | exact (H5 eq_refl eq_refl eq_refl)].
Defined.

Lemma port_patch_exclusive_witness :
  let c := container "kfserving-container" "sklearnserver:v0.5.0" [] in
  @addLoggerContainerPort consts (Some c) =
    Some (container "kfserving-container" "sklearnserver:v0.5.0"
            [ {| v1.PortName := ""; v1.HostPort := 0; v1.containerPort := 9081;
                 v1.Protocol := ""; v1.HostIP := "" |} ]) ∧
  @addBatcherContainerPort consts (Some c) =
    Some (container "kfserving-container" "sklearnserver:v0.5.0"
            [ {| v1.PortName := ""; v1.HostPort := 0; v1.containerPort := 9082;
                 v1.Protocol := ""; v1.HostIP := "" |} ]) ∧
  (∀ c', @addLoggerContainerPort consts (Some c) = Some c' →
         @addLoggerContainerPort consts (Some c') = Some c' ∧
         length (v1.Ports c') = 1%nat).
Proof.
  intros c.
  pose proof (@port_patch_exclusive consts c) as (H1 & _ & H3 & _).
  destruct (H1 eq_refl) as [Hl Hb].
  split_and!; [exact Hl | exact Hb |].
  intros c' Hc'. destruct (H3 c' Hc') as [Hagain Hlen].
  split; [exact Hagain | exact (Hlen eq_refl)].
Defined.

(** C3, the claim as stated fails.  With a logger present, the
    logging-enabled key is outside the disallow-list, the parent binds it
    to "false", and the synthesized map binds it to "true": the key is not
    retained with its value.  With a storage URI, the storage-source key
    is in the disallow-list and present in the synthesized map. *)
Lemma synthesizeAnnotations_not_filtered :
  let i := isvc "default" {[ "internal.serving.kubeflow.org/logger" := "false" ]}
             None None (Some requestLogger) None ∅ in
  let j := isvc "default" ∅ (Some "gs://models/iris") None None None ∅ in
  (@LoggerInternalAnnotationKey consts ∉ @ServiceAnnotationDisallowedList consts) ∧
  metav1.Annotations (ObjectMeta i) !! @LoggerInternalAnnotationKey consts = Some "false" ∧
  annotationsOf i !! @LoggerInternalAnnotationKey consts = Some "true" ∧
  (@StorageInitializerSourceUriInternalAnnotationKey consts
     ∈ @ServiceAnnotationDisallowedList consts) ∧
  annotationsOf j !! @StorageInitializerSourceUriInternalAnnotationKey consts
    = Some "gs://models/iris".
Proof.
  split_and!; [by_computation | reflexivity | reflexivity | by_computation | reflexivity].
Qed.

Lemma synthesizeAnnotations_filtered_witness :
  let i := isvc "default"
             {[ "autoscaling.knative.dev/minScale" := "3"; "owner" := "ml-team";
                "internal.serving.kubeflow.org/logger" := "false" ]}
             (Some "gs://models/iris") None (Some requestLogger) None ∅ in
  annotationsOf i !! "autoscaling.knative.dev/minScale" = None ∧
  annotationsOf i !! "owner" = Some "ml-team" ∧
  annotationsOf i !! "internal.serving.kubeflow.org/storage-initializer-sourceuri"
    = Some "gs://models/iris" ∧
  annotationsOf i !! "internal.serving.kubeflow.org/logger" = Some "true" ∧
  annotationsOf i !! "internal.serving.kubeflow.org/logger-mode" = Some "request".
Proof.
  intros i.
  pose proof (@synthesizeAnnotations_filtered consts decls methods i
                "autoscaling.knative.dev/minScale") as (_ & H1 & _ & Hw).
  pose proof (@synthesizeAnnotations_filtered consts decls methods i "owner")
    as (_ & _ & H2 & _).
  destruct (Hw fixture_keys_distinct) as (Hstorage & Hlogger & _).
  destruct (Hlogger requestLogger eq_refl) as (Henabled & Hmode & _).
  split_and!.
  - apply H1; by_computation.
  - refine (eq_trans (H2 _ _) eq_refl); by_computation.
  - exact (Hstorage "gs://models/iris" eq_refl).
  - exact Henabled.
  - exact Hmode.
Defined.


Lemma Reconcile_status_isolation_witness :
  let old : gmap string string := {[ "predictor" := "http://iris-predictor.old" ]} in
  (reconcile (builtinService "forbidden" old) []).2 =
    Returned (Some "services.serving.knative.dev is forbidden") ∧
  Status (reconcile (builtinService "forbidden" old) []).1.1 =
    Status (builtinService "forbidden" old) ∧
  (reconcile (builtinService "default" old) []).2 = Returned None ∧
  Components (Status (reconcile (builtinService "default" old) []).1.1) !! "predictor" =
    Some "http://iris-predictor".
Proof.
  intros old.
  pose proof (@Reconcile_status_isolation consts decls methods delegate p
                (builtinService "forbidden" old) []) as [Hfail _].
  pose proof (@Reconcile_status_isolation consts decls methods delegate p
                (builtinService "default" old) []) as [_ Hok].
  split_and!.
  - reflexivity.
  - apply Hfail. vm_compute. discriminate.
  - reflexivity.
  - destruct (synth (builtinService "default" old)) as [isvc1 [r|pn]] eqn:Hs;
      [|vm_compute in Hs; discriminate Hs].
    destruct (Hok isvc1 r Hs) as (_ & _ & Hsucc).
    vm_compute in Hs. injection Hs as <- <-.
    destruct (Hsucc "http://iris-predictor" [_] eq_refl eq_refl) as (_ & _ & Hentry).
    exact Hentry.
Defined.

Lemma Reconcile_preserves_override_witness :
  ∃ custom',
    Custom (v1beta1.Predictor (Spec (reconcile customService []).1.1)) = Some custom' ∧
    v1.Containers (v1.Spec (PodTemplateSpec custom')) !! 1%nat = Some sidecar ∧
    v1.Volumes (v1.Spec (PodTemplateSpec custom')) = [modelVolume] ∧
    v1.ServiceAccountName (v1.Spec (PodTemplateSpec custom')) = "models".
Proof.
  destruct (@Reconcile_preserves_override consts decls methods delegate p
              customService [] _ _ _ eq_refl eq_refl)
    as (custom' & _ & Hc & _ & _ & Hrest & Hvol & _ & Hsa & _).
  exists custom'. split_and!; [exact Hc | exact (Hrest 0%nat) | exact Hvol | exact Hsa].
Defined.

Lemma Reconcile_populates_custom_witness :
  is_Some (Custom (v1beta1.Predictor (Spec (reconcile (builtinService "forbidden" ∅) []).1.1))) ∧
  ∃ custom', Custom (v1beta1.Predictor (Spec (synth (builtinService "default" ∅)).1))
               = Some custom' ∧
             length (v1.Containers (v1.Spec (PodTemplateSpec custom'))) = 1%nat.
Proof.
  pose proof (@Reconcile_populates_custom consts decls methods delegate p
                (builtinService "forbidden" ∅) []) as (H1 & _).
  pose proof (@Reconcile_populates_custom consts decls methods delegate p
                (builtinService "default" ∅) []) as (_ & _ & H3 & _).
  split; [exact H1|].
  destruct (H3 eq_refl) as (custom' & Hc & _ & Hlen). by exists custom'.
Defined.

Lemma Reconcile_empty_override_panics_witness :
  reconcile emptyOverrideService [] =
    (emptyOverrideService, [], Panicked (IndexOutOfRange 0 0)).
Proof.
  exact (@Reconcile_empty_override_panics consts decls methods delegate p
           emptyOverrideService [] _ eq_refl eq_refl).
Defined.

Lemma ConfigMapReconciler_creates_witness :
  let c := multimodelconfig.NewConfigMapReconciler _ storeClient in
  let desired := configMap "modelconfig-iris" {[ "models.json" := "[]" ]} in
  let store : gmap (string * string) corev1.ConfigMap :=
    {[ ("default", "modelconfig-iris") := desired ]} in
  multimodelconfig.Reconcile c desired (trainedModel (Some 1604102400)) ∅ = (None, store) ∧
  multimodelconfig.Reconcile c desired (trainedModel None) ∅ = (None, store) ∧
  multimodelconfig.Reconcile c desired (trainedModel None) store =
    (Some "configmaps already exists", store).
Proof.
  intros c desired store. split_and!.
  - destruct (ConfigMapReconciler_creates c desired (trainedModel (Some 1604102400)) ∅)
      as [-> _]. reflexivity.
  - destruct (ConfigMapReconciler_creates c desired (trainedModel None) ∅) as [-> _].
    reflexivity.
  - destruct (ConfigMapReconciler_creates c desired (trainedModel None) store) as [-> _].
    reflexivity.
Defined.

End Instances.

(** * Further properties of the code *)

(** ** Decimal conversion, continued *)

Section StrconvMore.
Import Strconv.

Lemma digit_char_not_sign (d : Z) : 0 <= d < 10 → digit_char d ≠ "-"%char.
Proof.
  intros Hd. destruct (digit_cases d Hd) as [->|[->|[->|[->|[->|[->|[->|[->|[->| ->]]]]]]]]];
    vm_compute; discriminate.
Qed.

(** Different numbers have different decimal strings. *)
Lemma Itoa_inj (a b : Z) : Itoa a = Itoa b → a = b.
Proof.
  unfold Itoa.
  destruct (Z.ltb_spec a 0) as [Ha|Ha], (Z.ltb_spec b 0) as [Hb|Hb]; intros E.
  - assert (format_digits (digits_fuel (- a)) (- a) =
            format_digits (digits_fuel (- b)) (- b)) as E'
      by (injection E; intros E'; exact E').
    pose proof (parse_format_digits _ _ (digits_fuel_enough (- a) ltac:(lia))) as Pa.
    rewrite E', parse_format_digits in Pa by (apply digits_fuel_enough; lia).
    injection Pa. lia.
  - exfalso. destruct (format_digits_head (Z.to_nat (Z.log2 b)) b) as (d & r & Hd & Hr);
      [lia|]. unfold digits_fuel in E. rewrite Hr in E. injection E as E _.
    by apply (digit_char_not_sign d Hd).
  - exfalso. destruct (format_digits_head (Z.to_nat (Z.log2 a)) a) as (d & r & Hd & Hr);
      [lia|]. unfold digits_fuel in E. rewrite Hr in E. injection E as E _.
    by apply (digit_char_not_sign d Hd).
  - pose proof (parse_format_digits _ _ (digits_fuel_enough a Ha)) as Pa.
    rewrite E, parse_format_digits in Pa by (apply digits_fuel_enough; lia).
    injection Pa. lia.
Qed.

(** What [Atoi] returns next to an error: [0] for a syntax error, the
    nearest bound of [int] for a range error. *)
Lemma Atoi_error_value (s : string) (v : Z) (e : NumError) :
  Atoi s = (v, Some e) →
  match e with
  | ErrSyntax => v = 0
  | ErrRange => v = 2 ^ 63 - 1 ∨ v = - 2 ^ 63
  end.
Proof.
  unfold Atoi. destruct (_ && _)%nat.
  - unfold atoi_fast. destruct s as [|c r]; [by intros [= <- <-]|].
    destruct (_ && _); [by intros [= <- <-]|].
    destruct (parse_digits _ 0); [done | by intros [= <- <-]].
  - unfold ParseInt. destruct s as [|c r]; [by intros [= <- <-]|].
    destruct (if Ascii.eqb c "+" then _ else _) as [neg body].
    destruct (ParseUint body) as [un [[]|]]; [by intros [= <- <-]|..];
      (destruct (negb neg && _); [intros [= <- <-]; by left|]);
      (destruct (neg && _); [intros [= <- <-]; by right|]); done.
Qed.

End StrconvMore.

(** ** Annotations and ports, continued *)

Section AnnotationMore.
Import constants v1beta1 components.
Context `{Constants}.

(** X1: a logger with a sink URL leaves logging-enabled = "true", the
    sink-URL annotation equal to that URL and the mode annotation equal to
    the logger's mode, overwriting what the map had there; every other key
    of the map is bound as before. *)
Theorem addLoggerAnnotations_sink_url (m : gmap string string) (logger : LoggerSpec)
    (url : string) :
  NoDup InternalAnnotationKeys →
  URL logger = Some url →
  let m' := (addLoggerAnnotations (Some logger) m).2 in
  m' !! LoggerInternalAnnotationKey = Some "true" ∧
  m' !! LoggerSinkUrlInternalAnnotationKey = Some url ∧
  m' !! LoggerModeInternalAnnotationKey = Some (Mode logger) ∧
  (∀ K, K ≠ LoggerInternalAnnotationKey → K ≠ LoggerSinkUrlInternalAnnotationKey →
        K ≠ LoggerModeInternalAnnotationKey → m' !! K = m !! K).
Proof.
  intros Hkeys Hurl. distinct_keys Hkeys.
  cbn [addLoggerAnnotations snd]. rewrite Hurl. split_and!.
  - rewrite !lookup_insert_ne by congruence. apply lookup_insert_eq.
  - rewrite lookup_insert_ne by congruence. apply lookup_insert_eq.
  - apply lookup_insert_eq.
  - intros K Hk1 Hk2 Hk3. by rewrite !lookup_insert_ne.
Qed.


(** X3: each annotation step is idempotent: applied to its own result it
    returns the same flag and the same map, whatever the values of the key
    constants. *)
Theorem annotations_idempotent (logger : option LoggerSpec) (batcher : option Batcher)
    (m : gmap string string) :
  addLoggerAnnotations logger (addLoggerAnnotations logger m).2 =
    addLoggerAnnotations logger m ∧
  addBatcherAnnotations batcher (addBatcherAnnotations batcher m).2 =
    addBatcherAnnotations batcher m.
Proof.
  split.
  - destruct logger as [[url mode]|]; [|done]. cbn. f_equal.
    apply map_eq. intros k. destruct url; cbn;
      rewrite !lookup_insert; repeat case_decide; done.
  - destruct batcher as [[size latency timeout]|]; [|done]. cbn. f_equal.
    apply map_eq. intros k. destruct size, latency, timeout; cbn;
      rewrite !lookup_insert; repeat case_decide; done.
Qed.

(** X4: the batcher annotations lose nothing: on a map that binds none of
    the three value keys, two batchers that give the same annotation map are
    the same batcher. *)
Theorem addBatcherAnnotations_injective (m : gmap string string) (b1 b2 : Batcher) :
  NoDup InternalAnnotationKeys →
  m !! BatcherMaxBatchSizeInternalAnnotationKey = None →
  m !! BatcherMaxLatencyInternalAnnotationKey = None →
  m !! BatcherTimeoutInternalAnnotationKey = None →
  (addBatcherAnnotations (Some b1) m).2 = (addBatcherAnnotations (Some b2) m).2 →
  b1 = b2.
Proof.
  intros Hkeys Hs Hl Ht Heq. distinct_keys Hkeys.
  assert (∀ b : Batcher,
            (addBatcherAnnotations (Some b) m).2 !! BatcherMaxBatchSizeInternalAnnotationKey
              = Strconv.Itoa <$> MaxBatchSize b ∧
            (addBatcherAnnotations (Some b) m).2 !! BatcherMaxLatencyInternalAnnotationKey
              = Strconv.Itoa <$> MaxLatency b ∧
            (addBatcherAnnotations (Some b) m).2 !! BatcherTimeoutInternalAnnotationKey
              = Strconv.Itoa <$> Timeout b) as Hlook.
  { intros [size latency timeout]. cbn.
    destruct size, latency, timeout; cbn;
      rewrite ?lookup_insert_eq; rewrite ?lookup_insert_ne by congruence;
      rewrite ?lookup_insert_eq; rewrite ?lookup_insert_ne by congruence;
      rewrite ?lookup_insert_eq; rewrite ?lookup_insert_ne by congruence;
      rewrite ?lookup_insert_eq; auto. }
  destruct (Hlook b1) as (S1 & L1 & T1), (Hlook b2) as (S2 & L2 & T2).
  rewrite Heq in S1, L1, T1. rewrite S2 in S1. rewrite L2 in L1. rewrite T2 in T1.
  assert (∀ x y : option Z, Strconv.Itoa <$> x = Strconv.Itoa <$> y → x = y) as Hinj.
  { intros [x|] [y|] E; cbn in E; try done. injection E as E. f_equal. by apply Itoa_inj. }
  destruct b1, b2. cbn in *. f_equal; symmetry; by apply Hinj.
Qed.

(** X5: the error of [strconv.Atoi] is dropped by both port patches: on a
    container without ports a port entry is added also when [Atoi] fails.
    When [Atoi] reports a syntax error the entry has number 0; when it
    reports a range error the entry has number -1 or 0, the nearest bound
    of [int] narrowed to 32 bits. *)
Theorem port_patch_bad_constant (c : v1.Container) :
  v1.Ports c = [] →
  (∀ e, (Strconv.Atoi InferenceServiceDefaultLoggerPort).2 = Some e →
     ∃ n, addLoggerContainerPort (Some c) = Some (v1.set_Ports c [port_entry n]) ∧
          match e with
          | Strconv.ErrSyntax => v1.containerPort (port_entry n) = 0
          | Strconv.ErrRange =>
              v1.containerPort (port_entry n) = -1 ∨ v1.containerPort (port_entry n) = 0
          end) ∧
  (∀ e, (Strconv.Atoi InferenceServiceDefaultBatcherPort).2 = Some e →
     ∃ n, addBatcherContainerPort (Some c) = Some (v1.set_Ports c [port_entry n]) ∧
          match e with
          | Strconv.ErrSyntax => v1.containerPort (port_entry n) = 0
          | Strconv.ErrRange =>
              v1.containerPort (port_entry n) = -1 ∨ v1.containerPort (port_entry n) = 0
          end).
Proof.
  intros Hp.
  assert (∀ s e, (Strconv.Atoi s).2 = Some e →
            match e with
            | Strconv.ErrSyntax => v1.containerPort (port_entry (Strconv.Atoi s).1) = 0
            | Strconv.ErrRange =>
                v1.containerPort (port_entry (Strconv.Atoi s).1) = -1 ∨
                v1.containerPort (port_entry (Strconv.Atoi s).1) = 0
            end) as Hval.
  { intros s e He. destruct (Strconv.Atoi s) as [v oe] eqn:Ha. cbn in He. subst oe.
    pose proof (Atoi_error_value s v e Ha) as Hv. cbn.
    destruct e; [by subst v | destruct Hv as [-> | ->]; [by left | by right]]. }
  split; intros e He; eexists; split.
  - rewrite addLoggerContainerPort_Some, decide_True by done. reflexivity.
  - by apply Hval.
  - rewrite addBatcherContainerPort_Some, decide_True by done. reflexivity.
  - by apply Hval.
Qed.

End AnnotationMore.

(** ** The reconcile pass, continued *)

Section ReconcileMore.
Import constants v1beta1 components.
Context `{Constants} `{Declarations} `{!Methods} `{!knative.Delegate}.

(** The flags of a pass are the presence of the two sub-specifications. *)
Lemma desiredContainer_flags (p : Predictor) (isvc : InferenceService) :
  desiredContainer p isvc =
  portsPatched (if Logger (v1beta1.Predictor (Spec isvc)) is Some _ then true else false)
               (if Batcher' (v1beta1.Predictor (Spec isvc)) is Some _ then true else false)
               (builtContainer p isvc).
Proof.
  unfold desiredContainer, synthesizeAnnotations, builtContainer.
  destruct (Logger (v1beta1.Predictor (Spec isvc))),
           (Batcher' (v1beta1.Predictor (Spec isvc))); reflexivity.
Qed.

(** Unless the override is empty, the first container after a pass is the
    desired container. *)
Lemma Reconcile_firstContainer (p : Predictor) (isvc : InferenceService)
    (cluster : knative.Cluster) :
  (∀ custom, Custom (v1beta1.Predictor (Spec isvc)) = Some custom →
             v1.Containers (v1.Spec (PodTemplateSpec custom)) ≠ []) →
  firstContainer (Reconcile p isvc cluster).1.1 = Some (desiredContainer p isvc).
Proof.
  intros Hne. unfold firstContainer.
  destruct (Reconcile_spec_frame p isvc cluster) as [_ ->].
  destruct (Custom (v1beta1.Predictor (Spec isvc))) as [custom|] eqn:Hc.
  - destruct (v1.Containers (v1.Spec (PodTemplateSpec custom))) as [|c0 rest] eqn:Hl.
    + by destruct (Hne custom).
    + by rewrite (synthesize_override _ _ _ _ _ Hc Hl).
  - by rewrite (synthesize_fresh _ _ Hc).
Qed.


(** X8: logging takes the port.  When the built container declares no port
    and a logger is present, the first container after the pass has the
    logger port as its only port, also when a batcher is present: the
    batcher port is then not exposed.  The batcher port is the only port
    when a batcher is present and no logger. *)
Theorem Reconcile_logger_port_first (p : Predictor) (isvc : InferenceService)
    (cluster : knative.Cluster) :
  (∀ custom, Custom (v1beta1.Predictor (Spec isvc)) = Some custom →
             v1.Containers (v1.Spec (PodTemplateSpec custom)) ≠ []) →
  v1.Ports (builtContainer p isvc) = [] →
  (is_Some (Logger (v1beta1.Predictor (Spec isvc))) →
     firstContainer (Reconcile p isvc cluster).1.1 =
       Some (v1.set_Ports (builtContainer p isvc)
               [port_entry (Strconv.Atoi InferenceServiceDefaultLoggerPort).1])) ∧
  (Logger (v1beta1.Predictor (Spec isvc)) = None →
   is_Some (Batcher' (v1beta1.Predictor (Spec isvc))) →
     firstContainer (Reconcile p isvc cluster).1.1 =
       Some (v1.set_Ports (builtContainer p isvc)
               [port_entry (Strconv.Atoi InferenceServiceDefaultBatcherPort).1])).
Proof.
  intros Hne Hports. rewrite (Reconcile_firstContainer _ _ _ Hne), desiredContainer_flags.
  unfold portsPatched.
  rewrite !addLoggerContainerPort_Some, !addBatcherContainerPort_Some. split.
  - intros [logger ->].
    destruct (decide (v1.Ports (builtContainer p isvc) = [])) as [_|Hd]; [|done].
    by destruct (Batcher' _).
  - intros -> [batcher ->].
    by destruct (decide (v1.Ports (builtContainer p isvc) = [])) as [_|Hd].
Qed.

(** X9: the pass leaves the ports of the built container alone when the
    container declares a port of its own, and when neither logger nor
    batcher is present: the first container after the pass is then the
    built container as it is. *)
Theorem Reconcile_ports_untouched (p : Predictor) (isvc : InferenceService)
    (cluster : knative.Cluster) :
  (∀ custom, Custom (v1beta1.Predictor (Spec isvc)) = Some custom →
             v1.Containers (v1.Spec (PodTemplateSpec custom)) ≠ []) →
  v1.Ports (builtContainer p isvc) ≠ [] ∨
  (Logger (v1beta1.Predictor (Spec isvc)) = None ∧
   Batcher' (v1beta1.Predictor (Spec isvc)) = None) →
  firstContainer (Reconcile p isvc cluster).1.1 = Some (builtContainer p isvc).
Proof.
  intros Hne Hcase. rewrite (Reconcile_firstContainer _ _ _ Hne), desiredContainer_flags.
  unfold portsPatched.
  rewrite !addLoggerContainerPort_Some, !addBatcherContainerPort_Some.
  destruct Hcase as [Hports | [-> ->]]; [|done].
  destruct (decide (v1.Ports (builtContainer p isvc) = [])) as [Hd|Hd]; [done|].
  destruct (Logger _), (Batcher' _); cbn; by rewrite ?decide_False.
Qed.

(** X10: the storage-source annotation is the controller's.  When the
    active implementation has a storage URI the synthesized map binds the
    storage-source key to that URI, whatever the parent's annotations say;
    when it has none and the key is on the disallow-list, the key is absent
    even if the parent carries it. *)
Theorem synthesizeAnnotations_storage (isvc : InferenceService) :
  NoDup InternalAnnotationKeys →
  (∀ uri, GetStorageUri (GetImplementation (v1beta1.Predictor (Spec isvc))) = Some uri →
     (synthesizeAnnotations isvc).2 !! StorageInitializerSourceUriInternalAnnotationKey
       = Some uri) ∧
  (GetStorageUri (GetImplementation (v1beta1.Predictor (Spec isvc))) = None →
   StorageInitializerSourceUriInternalAnnotationKey ∈ ServiceAnnotationDisallowedList →
     (synthesizeAnnotations isvc).2 !! StorageInitializerSourceUriInternalAnnotationKey
       = None).
Proof.
  intros Hkeys. distinct_keys Hkeys.
  rewrite synthesizeAnnotations_eq. split.
  - intros uri ->. cbn zeta.
    rewrite addBatcherAnnotations_other, addLoggerAnnotations_other.
    + apply lookup_insert_eq.
    + destruct (Logger _) as [[[url|] mode]|]; cbn;
        rewrite ?not_elem_of_cons; repeat split; (done || apply not_elem_of_nil).
    + destruct (Batcher' _) as [[[size|] [latency|] [timeout|]]|]; cbn;
        rewrite ?not_elem_of_cons; repeat split; (done || apply not_elem_of_nil).
  - intros -> Hd. cbn zeta.
    rewrite addBatcherAnnotations_other, addLoggerAnnotations_other.
    + rewrite Filter_lookup. apply Includes_elem_of in Hd. by rewrite Hd.
    + destruct (Logger _) as [[[url|] mode]|]; cbn;
        rewrite ?not_elem_of_cons; repeat split; (done || apply not_elem_of_nil).
    + destruct (Batcher' _) as [[[size|] [latency|] [timeout|]]|]; cbn;
        rewrite ?not_elem_of_cons; repeat split; (done || apply not_elem_of_nil).
Qed.

(** X11: the status comes back.  A pass returns [nil] only after its
    delegate has returned a status snapshot; that snapshot is then the
    parent's status entry of the predictor component, and a second pass on
    the parent does not panic and hands exactly that snapshot to its
    delegate as the prior status. *)
Theorem Reconcile_status_comes_back (p : Predictor) (isvc isvc' : InferenceService)
    (cluster cluster' : knative.Cluster) :
  Reconcile p isvc cluster = (isvc', cluster', Returned None) →
  ∃ isvc1 r status r2,
    synthesize p isvc = (isvc1, Ok r) ∧
    knative.SetControllerReference isvc1 r = None ∧
    knative.Reconcile r cluster = (inr status, cluster') ∧
    Components (Status isvc') !! PredictorComponent = Some status ∧
    (synthesize p isvc').2 = Ok r2 ∧
    knative.componentStatus r2 = status.
Proof.
  unfold Reconcile. destruct (synthesize p isvc) as [isvc1 [r|pn]] eqn:Hs; [|done].
  destruct (synthesize_result p isvc r) as (custom1 & rest & Hs1 & Hl1 & _);
    [by rewrite Hs|].
  rewrite Hs in Hs1. cbn in Hs1.
  destruct (knative.SetControllerReference isvc1 r) eqn:Howner; [done|].
  destruct (knative.Reconcile r cluster) as [[err|status] cl] eqn:Hdel; [done|].
  intros [= <- <-]. exists isvc1, r, status.
  assert (Custom (v1beta1.Predictor (Spec (PropagateStatus isvc1 PredictorComponent status)))
          = Some custom1) as Hc' by by rewrite Hs1.
  rewrite (synthesize_override _ _ _ _ _ Hc' Hl1). eexists. split_and!; try done.
  - apply lookup_insert_eq.
  - cbn. by rewrite lookup_insert_eq.
Qed.

(** X12: what the delegate is given.  When synthesis succeeds, the child is
    named after the parent and the component kind and lives in the parent's
    namespace; its pod spec is the one the pass stored in the parent's
    custom variant; its extension spec is the parent's; and its prior
    status is the parent's entry for the predictor component, or the zero
    value when there is none. *)
Theorem synthesize_delegate_input (p : Predictor) (isvc isvc1 : InferenceService)
    (r : knative.KsvcReconciler) :
  synthesize p isvc = (isvc1, Ok r) →
  metav1.Name (knative.componentMeta r) =
    metav1.Name (ObjectMeta isvc) +:+ "-" +:+ PredictorComponent ∧
  metav1.Namespace (knative.componentMeta r) = metav1.Namespace (ObjectMeta isvc) ∧
  (∃ custom, Custom (v1beta1.Predictor (Spec isvc1)) = Some custom ∧
             knative.podSpec r = v1.Spec (PodTemplateSpec custom)) ∧
  knative.componentExt r = ComponentExtensionSpec' (v1beta1.Predictor (Spec isvc)) ∧
  (∀ status, Components (Status isvc) !! PredictorComponent = Some status →
             knative.componentStatus r = status) ∧
  (Components (Status isvc) !! PredictorComponent = None →
   knative.componentStatus r = ComponentStatusSpec_zero).
Proof.
  intros Hs. destruct (synthesize_result p isvc r) as (custom1 & rest & Hs1 & _ & ->);
    [by rewrite Hs|].
  rewrite Hs in Hs1. cbn in Hs1. subst isvc1. cbn. split_and!; try done.
  - by exists custom1.
  - by intros status ->.
  - by intros ->.
Qed.

(** X13: the labels of the child.  Every label of the parent whose key is
    not one of the two system label keys is a label of the child, and the
    child has no other label besides the two system labels; a system label
    key that the parent does not use is bound to the system value: the
    parent's name for the pod-grouping label, the component kind for the
    component label. *)
Theorem synthesizeObjectMeta_labels (isvc : InferenceService)
    (annotations : gmap string string) :
  InferenceServicePodLabelKey ≠ KServiceComponentLabel →
  let labels := metav1.Labels (synthesizeObjectMeta isvc annotations) in
  (∀ K, K ≠ InferenceServicePodLabelKey → K ≠ KServiceComponentLabel →
        labels !! K = metav1.Labels (ObjectMeta isvc) !! K) ∧
  is_Some (labels !! InferenceServicePodLabelKey) ∧
  is_Some (labels !! KServiceComponentLabel) ∧
  (metav1.Labels (ObjectMeta isvc) !! InferenceServicePodLabelKey = None →
     labels !! InferenceServicePodLabelKey = Some (metav1.Name (ObjectMeta isvc))) ∧
  (metav1.Labels (ObjectMeta isvc) !! KServiceComponentLabel = None →
     labels !! KServiceComponentLabel = Some PredictorComponent).
Proof.
  intros Hne labels. subst labels. cbn.
  rewrite (right_id_L ∅ (∪)).
  assert (∀ K v, (<[KServiceComponentLabel:=PredictorComponent]>
                    (<[InferenceServicePodLabelKey:=metav1.Name (ObjectMeta isvc)]> ∅)
                  : gmap string string) !! K = Some v →
                 (<[KServiceComponentLabel:=PredictorComponent]>
                    (<[InferenceServicePodLabelKey:=metav1.Name (ObjectMeta isvc)]> ∅)
                  ∪ metav1.Labels (ObjectMeta isvc)) !! K = Some v) as Hsys.
  { intros K v HK. by apply lookup_union_Some_l. }
  split_and!.
  - intros K H1' H2'. rewrite lookup_union_r; [done|].
    by rewrite !lookup_insert_ne.
  - eexists. apply Hsys. rewrite lookup_insert_ne by done. apply lookup_insert_eq.
  - eexists. apply Hsys. apply lookup_insert_eq.
  - intros _. apply Hsys. rewrite lookup_insert_ne by done. apply lookup_insert_eq.
  - intros _. apply Hsys. apply lookup_insert_eq.
Qed.

End ReconcileMore.

(** ** The further properties on the concrete instance *)

Section InstancesMore.
Import constants v1beta1 components fixture.

Lemma addLoggerAnnotations_sink_url_witness :
  let m : gmap string string :=
    {[ "internal.serving.kubeflow.org/logger-sink-url" := "http://old-sink";
       "owner" := "ml-team" ]} in
  let m' := (@addLoggerAnnotations consts (Some sinkLogger) m).2 in
  m' !! "internal.serving.kubeflow.org/logger-sink-url" = Some "http://broker.default/events" ∧
  m' !! "internal.serving.kubeflow.org/logger-mode" = Some "all" ∧
  m' !! "owner" = Some "ml-team".
Proof.
  intros m m'.
  pose proof (@addLoggerAnnotations_sink_url consts m sinkLogger _
                fixture_keys_distinct eq_refl) as (_ & H2 & H3 & H4).
  split_and!; [exact H2 | exact H3 |].
  unfold m'. rewrite (H4 "owner") by (vm_compute; discriminate). reflexivity.
Defined.


Lemma addBatcherAnnotations_injective_witness :
  (@addBatcherAnnotations consts (Some smallBatcher) ∅).2 ≠
  (@addBatcherAnnotations consts
     (Some {| MaxBatchSize := Some 32; MaxLatency := None; Timeout := Some 60 |}) ∅).2.
Proof.
  intros Heq.
  pose proof (@addBatcherAnnotations_injective consts ∅ smallBatcher _
                fixture_keys_distinct eq_refl eq_refl eq_refl Heq) as Hb.
  discriminate Hb.
Defined.

Lemma port_patch_bad_constant_witness :
  let c := container "kfserving-container" "sklearnserver:v0.5.0" [] in
  (∃ n, @addLoggerContainerPort (constsWithPorts "http" "99999999999999999999x") (Some c)
          = Some (v1.set_Ports c [@port_entry n]) ∧
        v1.containerPort (port_entry n) = 0) ∧
  (∃ n, @addBatcherContainerPort (constsWithPorts "http" "99999999999999999999x") (Some c)
          = Some (v1.set_Ports c [@port_entry n]) ∧
        (v1.containerPort (port_entry n) = -1 ∨ v1.containerPort (port_entry n) = 0)).
Proof.
  intros c.
  destruct (@port_patch_bad_constant (constsWithPorts "http" "99999999999999999999x") c
              eq_refl) as [Hl Hb].
  split.
  - exact (Hl Strconv.ErrSyntax eq_refl).
  - exact (Hb Strconv.ErrRange eq_refl).
Defined.


Lemma Reconcile_logger_port_first_witness :
  firstContainer (reconcile (builtinService "default" ∅) []).1.1 =
    Some (container "kfserving-container" "sklearnserver:v0.5.0"
            [ {| v1.PortName := ""; v1.HostPort := 0; v1.containerPort := 9081;
                 v1.Protocol := ""; v1.HostIP := "" |} ]).
Proof.
  destruct (@Reconcile_logger_port_first consts decls methods delegate p
              (builtinService "default" ∅) []
              ltac:(intros custom Hc; discriminate Hc) eq_refl) as [Hl _].
  exact (Hl (ex_intro _ requestLogger eq_refl)).
Defined.

Lemma Reconcile_ports_untouched_witness :
  firstContainer (reconcile plainService []).1.1 =
    Some (container "kfserving-container" "sklearnserver:v0.5.0" []).
Proof.
  exact (@Reconcile_ports_untouched consts decls methods delegate p plainService []
           ltac:(intros custom Hc; discriminate Hc) (or_intror (conj eq_refl eq_refl))).
Defined.

Lemma synthesizeAnnotations_storage_witness :
  annotationsOf
    (isvc "default"
       {[ "internal.serving.kubeflow.org/storage-initializer-sourceuri" := "gs://other" ]}
       (Some "gs://models/iris") None None None ∅)
  !! "internal.serving.kubeflow.org/storage-initializer-sourceuri" = Some "gs://models/iris" ∧
  annotationsOf
    (isvc "default"
       {[ "internal.serving.kubeflow.org/storage-initializer-sourceuri" := "gs://other" ]}
       None (Some (podTemplate [sidecar] [])) None None ∅)
  !! "internal.serving.kubeflow.org/storage-initializer-sourceuri" = None.
Proof.
  split.
  - exact (proj1 (@synthesizeAnnotations_storage consts decls methods
                    (isvc "default"
                       {[ "internal.serving.kubeflow.org/storage-initializer-sourceuri"
                            := "gs://other" ]}
                       (Some "gs://models/iris") None None None ∅)
                    fixture_keys_distinct) "gs://models/iris" eq_refl).
  - apply (proj2 (@synthesizeAnnotations_storage consts decls methods
                    (isvc "default"
                       {[ "internal.serving.kubeflow.org/storage-initializer-sourceuri"
                            := "gs://other" ]}
                       None (Some (podTemplate [sidecar] [])) None None ∅)
                    fixture_keys_distinct) eq_refl).
    by_computation.
Defined.

Lemma Reconcile_status_comes_back_witness :
  ∃ r r2,
    (synth (builtinService "default" ∅)).2 = Ok r ∧
    (@knative.Reconcile decls delegate r []).1 = inr "http://iris-predictor" ∧
    (synth (reconcile (builtinService "default" ∅) []).1.1).2 = Ok r2 ∧
    knative.componentStatus r2 = "http://iris-predictor".
Proof.
  destruct (@Reconcile_status_comes_back consts decls methods delegate p
              (builtinService "default" ∅)
              (reconcile (builtinService "default" ∅) []).1.1 []
              (reconcile (builtinService "default" ∅) []).1.2
              ltac:(vm_compute; reflexivity))
    as (isvc1 & r & status & r2 & Hs & _ & Hdel & Hst & Hr2 & Hcs).
  vm_compute in Hst. injection Hst as <-.
  exists r, r2. split_and!.
  - exact (f_equal snd Hs).
  - exact (f_equal fst Hdel).
  - exact Hr2.
  - exact Hcs.
Defined.

Lemma synthesize_delegate_input_witness :
  ∃ r, (synth (builtinService "prod" {[ "predictor" := "http://iris-predictor.old" ]})).2
         = Ok r ∧
       metav1.Name (knative.componentMeta r) = "iris-predictor" ∧
       metav1.Namespace (knative.componentMeta r) = "prod" ∧
       knative.componentStatus r = "http://iris-predictor.old".
Proof.
  destruct (synth (builtinService "prod" {[ "predictor" := "http://iris-predictor.old" ]}))
    as [isvc1 [r|pn]] eqn:Hs; [|vm_compute in Hs; discriminate Hs].
  destruct (@synthesize_delegate_input consts decls methods p _ isvc1 r Hs)
    as (Hname & Hns & _ & _ & Hst & _).
  exists r. split_and!; [reflexivity | exact Hname | exact Hns |].
  exact (Hst "http://iris-predictor.old" eq_refl).
Defined.

Lemma synthesizeObjectMeta_labels_witness :
  let labels := metav1.Labels (@synthesizeObjectMeta consts decls plainService ∅) in
  labels !! "team" = Some "ml" ∧
  labels !! "serving.kubeflow.org/inferenceservice" = Some "iris" ∧
  labels !! "component" = Some "predictor".
Proof.
  intros labels.
  destruct (@synthesizeObjectMeta_labels consts decls plainService ∅
              ltac:(vm_compute; discriminate)) as (Hother & _ & _ & Hpod & Hcomp).
  split_and!.
  - refine (eq_trans (Hother "team" _ _) eq_refl); vm_compute; discriminate.
  - exact (Hpod eq_refl).
  - exact (Hcomp eq_refl).
Defined.

End InstancesMore.
